(** * scvi-tools: training callbacks, KL annealing and the Stereoscope wrapper

    A shallow embedding of
      - [scvi/lightning/_callbacks.py] ([SubSampleLabels], [SaveBestState]),
      - [scvi/external/stereoscope/_model.py] ([SpatialStereoscope.__init__]),
    together with the annealing schedule and the epoch loop that the
    callbacks run in.  Objects that Python shares and mutates in place
    (parameter tensors, the caller's AnnData) are passed as explicit state.

    Part I holds the model, Part II its properties. *)

From Stdlib Require Import ZArith QArith Qminmax String Ascii List Lia SpecFloat.
From stdpp Require Import base option list gmap strings pretty.

(** * Part I: the model *)

(** ** Python results: a value or a raised exception *)

Inductive exn : Type :=
| ValueError (msg : string)
| AttributeError (msg : string)
| RuntimeError (msg : string).

Inductive result (A : Type) : Type :=
| Ok (a : A)
| Raise (e : exn).
Arguments Ok {A} a.
Arguments Raise {A} e.

(** ** KL annealing schedule *)

Module Annealing.

(** Modelled from the spec: the scheduler (the trainer's [kl_weight]) is not
    among the sources, which only hold [test_annealing_procedures].  Section
    4.1: "If warmup length is unset or zero: weight = 1.0 (no warmup).  Else:
    weight = min(1.0, elapsed / warmup_length)".  [None] is the unset warmup
    length; weights are exact rationals, and [Qmin 1 x] keeps [1] unless
    [x < 1], as Python's [min(1.0, x)] does. *)
Definition kl_weight (warmup_length : option Z) (elapsed : Z) : Q :=
  match warmup_length with
  | None => 1%Q
  | Some w =>
      if (w =? 0)%Z then 1%Q
      else Qmin 1 (inject_Z elapsed / inject_Z w)
  end.

End Annealing.

(** ** Tensors, the heap and state dictionaries

    Parameter tensors are mutable objects: a tensor is identified by the
    location of its storage, and the heap maps every allocated location to
    the raw words stored there.  Allocation appends, so a location is fresh
    exactly when it is not below the heap's length. *)

Abbreviation loc := nat (only parsing).
Abbreviation tensor := (list Z) (only parsing).
Abbreviation heap := (list (list Z)) (only parsing).
(** An [OrderedDict] from parameter names to tensors. *)
Abbreviation ordered_dict := (list (string * nat)) (only parsing).

Definition read (h : heap) (l : loc) : tensor := default [] (h !! l).

Definition keys (d : ordered_dict) : list string := d.*1.

Fixpoint assoc {K V} `{EqDecision K} (k : K) (d : list (K * V)) : option V :=
  match d with
  | [] => None
  | (k', v) :: rest => if decide (k = k') then Some v else assoc k rest
  end.

(** The tensor a state dictionary holds under a name, read through the heap. *)
Definition entry (d : ordered_dict) (h : heap) (k : string) : option tensor :=
  read h <$> assoc k d.

(** [copy.deepcopy] of a state dictionary.  The memo maps every storage
    already copied to its copy, so tensors that share storage still share it
    in the copy; every other tensor gets a newly allocated storage holding
    the same words. *)
Fixpoint deepcopy_items (items : ordered_dict) (memo : list (loc * loc))
    (h : heap) : ordered_dict * heap :=
  match items with
  | [] => ([], h)
  | (k, l) :: rest =>
      match assoc l memo with
      | Some l' =>
          let '(rest', h') := deepcopy_items rest memo h in
          ((k, l') :: rest', h')
      | None =>
          let l' := length h in
          let '(rest', h') :=
            deepcopy_items rest ((l, l') :: memo) (h ++ [read h l]) in
          ((k, l') :: rest', h')
      end
  end.

Definition deepcopy (d : ordered_dict) (h : heap) : ordered_dict * heap :=
  deepcopy_items d [] h.

(** What the callbacks need of [pl_module.model]: any object with
    [state_dict()] and [load_state_dict(state_dict)]. *)
Class StatefulModel (M : Type) := {
  state_dict : M -> ordered_dict;
  load_state_dict : M -> option ordered_dict -> heap -> result unit * heap
}.

(** A [torch.nn.Module]: its named parameters and buffers. *)
Record nn_Module := { named_tensors : ordered_dict }.

(** [param.copy_(input_param)] for one entry of the module's own state: a
    name the given dictionary lacks, or a tensor of another shape, is
    skipped (and reported afterwards). *)
Definition copy_ (d : ordered_dict) (h : heap) (own : string * loc) : heap :=
  match assoc own.1 d with
  | Some src =>
      if decide (length (read h src) = length (read h own.2))
      then <[own.2 := read h src]> h
      else h
  | None => h
  end.

Definition loadable (d : ordered_dict) (h : heap) (own : string * loc) : bool :=
  match assoc own.1 d with
  | Some src => bool_decide (length (read h src) = length (read h own.2))
  | None => false
  end.

(** [nn.Module.load_state_dict(state_dict, strict=True)]: something that is
    no dictionary has no [copy] attribute; otherwise matching entries are
    copied in place, and missing keys, unexpected keys or size mismatches
    raise once the copying is done. *)
Definition nn_load_state_dict (m : nn_Module) (arg : option ordered_dict)
    (h : heap) : result unit * heap :=
  match arg with
  | None => (Raise (AttributeError "NoneType object has no attribute copy"), h)
  | Some d =>
      let h' := foldl (copy_ d) h (named_tensors m) in
      if forallb (loadable d h) (named_tensors m)
         && forallb (fun k => bool_decide (k ∈ keys (named_tensors m))) (keys d)
      then (Ok (), h')
      else (Raise (RuntimeError "Error(s) in loading state_dict"), h')
  end.

#[global] Instance nn_Module_model : StatefulModel nn_Module := {
  state_dict := named_tensors;
  load_state_dict := nn_load_state_dict
}.

(** ** The trainer and the wrapped module, as the callbacks see them *)

(** A logged metric: a one-element [torch.Tensor] or a plain number. *)
Inductive metric : Type :=
| TensorMetric (x : spec_float)
| FloatMetric (x : spec_float).

(** [current.item()] when [current] is a tensor, [current] itself otherwise. *)
Definition item (current : metric) : spec_float :=
  match current with
  | TensorMetric x => x
  | FloatMetric x => x
  end.

Record Trainer (DataLoader : Type) := {
  callback_metrics : gmap string metric;
  current_epoch : Z;
  train_dataloader : DataLoader
}.
Arguments callback_metrics {DataLoader} _.
Arguments current_epoch {DataLoader} _.
Arguments train_dataloader {DataLoader} _.

Record LightningModule (M : Type) := { model : M }.
Arguments model {M} _.

(** What the hooks need of [trainer.train_dataloader]. *)
Class LabelledLoader (DataLoader : Type) := {
  resample_labels : DataLoader -> DataLoader
}.

(** What a callback emits besides its state changes. *)
Inductive event : Type :=
| Warn (category message : string)
| RankZeroInfo (epoch : Z) (monitor : string).

(** The numpy comparisons the monitor chooses between. *)
Inductive ufunc : Type := np_less | np_greater.

Definition call (op : ufunc) (a b : spec_float) : bool :=
  match op with
  | np_less => SFltb a b
  | np_greater => SFltb b a
  end.

Definition np_Inf : spec_float := S754_infinity false.

(** ** [pytorch_lightning.callbacks.Callback]: hooks that do nothing *)

Module Callback.

Definition on_epoch_start {DataLoader M : Type} (trainer : Trainer DataLoader)
    (pl_module : LightningModule M) : Trainer DataLoader * LightningModule M :=
  (trainer, pl_module).

End Callback.

(** ** [SubSampleLabels] *)

Module SubSampleLabels.

(** The callback has no state of its own. *)
Definition __init__ : unit := ().

Section Hooks.
Context {DataLoader M : Type} `{LabelledLoader DataLoader}.

(** The trainer and the module as the hook leaves them; the data loader is
    an attribute of the trainer, so resampling it in place shows as the
    trainer's new [train_dataloader]. *)
Definition on_epoch_start (trainer : Trainer DataLoader)
    (pl_module : LightningModule M) : Trainer DataLoader * LightningModule M :=
  let trainer :=
    {| callback_metrics := callback_metrics trainer;
       current_epoch := current_epoch trainer;
       train_dataloader := resample_labels (train_dataloader trainer) |} in
  Callback.on_epoch_start trainer pl_module.

End Hooks.

End SubSampleLabels.

(** ** [SaveBestState] *)

Module SaveBestState.

Record t := {
  monitor : string;
  verbose : bool;
  period : Z;
  epochs_since_last_check : Z;
  best_model_state : option ordered_dict;
  monitor_op : ufunc;
  best_model_metric_val : spec_float;
  mode : string
}.

(** The three fields every branch of the constructor assigns. *)
Definition comparison : Type := ufunc * spec_float * string.

Definition minimise : comparison := (np_less, np_Inf, "min").
Definition maximise : comparison := (np_greater, SFopp np_Inf, "max").

(** ["acc" in s], on top of the standard library's [String.index]. *)
Definition contains (needle s : string) : bool :=
  match String.index 0 needle s with Some _ => true | None => false end.

(** The constructor's last [else] branch: the mode read off the monitor's
    name. *)
Definition mode_of_monitor (monitor : string) : comparison :=
  if contains "acc" monitor || String.prefix "fmeasure" monitor
  then maximise
  else minimise.

(** The constructor, with the body of its last [else] branch as the
    argument [otherwise]. *)
Definition init_with (otherwise : string -> comparison)
    (monitor mode : string) (verbose : bool) (period : Z) : result t :=
  if negb (bool_decide (mode ∈ ["min"; "max"]))
  then Raise (ValueError ("SaveBestState mode " +:+ mode +:+ " is unknown"))
  else
    let '(op, best, mode') :=
      if String.eqb mode "min" then minimise
      else if String.eqb mode "max" then maximise
      else otherwise monitor in
    Ok {| monitor := monitor;
          verbose := verbose;
          period := period;
          epochs_since_last_check := 0;
          best_model_state := None;
          monitor_op := op;
          best_model_metric_val := best;
          mode := mode' |}.

Definition __init__ : string -> string -> bool -> Z -> result t :=
  init_with mode_of_monitor.

Definition check_monitor_top (self : t) (current : spec_float) : bool :=
  call (monitor_op self) current (best_model_metric_val self).

Definition set_epochs_since_last_check (n : Z) (self : t) : t :=
  {| monitor := monitor self;
     verbose := verbose self;
     period := period self;
     epochs_since_last_check := n;
     best_model_state := best_model_state self;
     monitor_op := monitor_op self;
     best_model_metric_val := best_model_metric_val self;
     mode := mode self |}.

Definition set_best (state : ordered_dict) (val : spec_float) (self : t) : t :=
  {| monitor := monitor self;
     verbose := verbose self;
     period := period self;
     epochs_since_last_check := epochs_since_last_check self;
     best_model_state := Some state;
     monitor_op := monitor_op self;
     best_model_metric_val := val;
     mode := mode self |}.

Definition skipping (monitor : string) : event :=
  Warn "RuntimeWarning"
    ("Can save best model state only with " +:+ monitor +:+ " available,"
       +:+ " skipping.").

Section Hooks.
Context {DataLoader M : Type} `{StatefulModel M}.

(** The callback's new state, the heap and what was emitted. *)
Definition on_epoch_end (self : t) (trainer : Trainer DataLoader)
    (pl_module : LightningModule M) (h : heap) : t * heap * list event :=
  let logs := callback_metrics trainer in
  let self := set_epochs_since_last_check (epochs_since_last_check self + 1) self in
  if (period self <=? epochs_since_last_check self)%Z then
    let self := set_epochs_since_last_check 0 self in
    match logs !! monitor self with
    | None => (self, h, [skipping (monitor self)])
    | Some current =>
        let current := item current in
        if check_monitor_top self current then
          let '(copy, h') := deepcopy (state_dict (model pl_module)) h in
          (set_best copy current self, h',
           if verbose self
           then [RankZeroInfo (current_epoch trainer) (monitor self)]
           else [])
        else (self, h, [])
    end
  else (self, h, []).

Definition on_train_end (self : t) (trainer : Trainer DataLoader)
    (pl_module : LightningModule M) (h : heap) : result unit * heap :=
  load_state_dict (model pl_module) (best_model_state self) h.

End Hooks.

(** The mode and the comparison agree: what the constructor establishes and
    no hook changes. *)
Definition mode_agrees (self : t) : Prop :=
  (mode self = "min" /\ monitor_op self = np_less)
  \/ (mode self = "max" /\ monitor_op self = np_greater).

End SaveBestState.

(** ** Predicates on heaps used in the statements *)

(** [l'] is a copy made after [h0]: allocated in [h'] but not in [h0], and
    holding what [l] held in [h0]. *)
Definition copied (h0 h' : heap) (l l' : loc) : Prop :=
  length h0 <= l' < length h' /\ read h' l' = read h0 l.

(** A module's state in a heap: the names are the keys of a dictionary,
    hence distinct, and every tensor is allocated. *)
Definition well_formed (m : nn_Module) (h : heap) : Prop :=
  NoDup (keys (named_tensors m))
  /\ Forall (fun e => e.2 < length h) (named_tensors m).

(** What the epochs between a capture in [h1] and the end of training may
    have done by [h2]: allocate, and overwrite in place any tensor that is
    not the snapshot's, the module's tensors keeping their shapes. *)
Definition trained (m : nn_Module) (snap : ordered_dict) (h1 h2 : heap) : Prop :=
  length h1 <= length h2
  /\ (forall k s, (k, s) ∈ snap -> read h2 s = read h1 s)
  /\ (forall k p, (k, p) ∈ named_tensors m ->
        length (read h2 p) = length (read h1 p)).

(** ** The training loop *)

Module TrainingLoop.

(** What a data loader is asked to do, and what a request for the next
    batch answered. *)
Inductive call (Batch : Type) : Type :=
| ResampleLabels
| Yielded (batch : Batch)
| Exhausted.
Arguments ResampleLabels {Batch}.
Arguments Yielded {Batch} batch.
Arguments Exhausted {Batch}.


(** A data loader that notes every call it receives and passes it on. *)
Record recorder (DataLoader Batch : Type) := {
  inner : DataLoader;
  calls : list (call Batch)
}.
Arguments inner {DataLoader Batch} _.
Arguments calls {DataLoader Batch} _.

#[global] Instance recorder_loader {DataLoader Batch : Type}
    `{LabelledLoader DataLoader} : LabelledLoader (recorder DataLoader Batch) := {
  resample_labels := fun r =>
    {| inner := resample_labels (inner r);
       calls := calls r ++ [ResampleLabels] |}
}.

(** One pass of the recorder over the split: the inner loader's pass, every
    batch and the exhaustion noted. *)
Definition recorded {DataLoader Batch : Type}
    (next_batches : DataLoader -> list Batch * DataLoader)
    (r : recorder DataLoader Batch) : list Batch * recorder DataLoader Batch :=
  let '(batches, loader) := next_batches (inner r) in
  (batches,
   {| inner := loader;
      calls := calls r ++ (Yielded <$> batches) ++ [Exhausted] |}).


Section Loop.
Context {DataLoader Batch M : Type} `{StatefulModel M}.
(** The [on_epoch_start] of the callback the trainer was given. *)
Variable on_epoch_start :
  Trainer DataLoader -> LightningModule M
  -> Trainer DataLoader * LightningModule M.
(** One pass over the training split: the batches it yields before it is
    exhausted, and the loader as the pass leaves it. *)
Variable next_batches : DataLoader -> list Batch * DataLoader.
(** Loss under the given KL weight, backward pass and optimizer step: one
    in-place update of the parameters. *)
Variable optimizer_step : Batch -> Q -> heap -> heap.
(** The metrics logged at the end of an epoch. *)
Variable validate : heap -> gmap string metric.
Variable n_epochs_kl_warmup : option Z.

Record session := {
  trainer : Trainer DataLoader;
  pl_module : LightningModule M;
  memory : heap;
  tracker : SaveBestState.t;
  current_iteration : Z
}.

(** Modelled from the spec: section 4.5, the body of "for each minibatch":
    the KL weight of the epoch, one update of the parameters, the iteration
    counter advanced. *)
Definition run_batch (epoch : Z) (acc : heap * Z) (batch : Batch) : heap * Z :=
  (optimizer_step batch (Annealing.kl_weight n_epochs_kl_warmup epoch) acc.1,
   (acc.2 + 1)%Z).

(** Modelled from the spec: the loop that calls the hooks is not among the
    sources.  Section 4.5, per-epoch sequence: "[fire Label Resubsampling
    Hook] -> for each minibatch: [compute kl_weight via 4.1] -> [compute
    loss] -> [backward pass] -> [optimizer step] -> advance iteration counter
    -> end-of-epoch: [advance epoch counter] -> [run Metric Monitor on
    validation metrics] -> [if improved, Best-State Tracker captures
    snapshot]".  The batches are those of the data loader the trainer holds
    once the hook has returned. *)
Definition run_epoch (s : session) : session :=
  let epoch := current_epoch (trainer s) in
  let '(trainer1, pl_module1) := on_epoch_start (trainer s) (pl_module s) in
  let '(batches, loader) := next_batches (train_dataloader trainer1) in
  let '(h1, iteration1) :=
    foldl (run_batch epoch) (memory s, current_iteration s) batches in
  let trainer2 :=
    {| callback_metrics := validate h1;
       current_epoch := (epoch + 1)%Z;
       train_dataloader := loader |} in
  let '(tracker2, h2, _) :=
    SaveBestState.on_epoch_end (tracker s) trainer2 pl_module1 h1 in
  {| trainer := trainer2;
     pl_module := pl_module1;
     memory := h2;
     tracker := tracker2;
     current_iteration := iteration1 |}.

(** Modelled from the spec: section 4.5, the "Running" state repeats the
    per-epoch sequence for the requested number of epochs. *)
Fixpoint fit (n_epochs : nat) (s : session) : session :=
  match n_epochs with
  | O => s
  | S n => fit n (run_epoch s)
  end.

End Loop.

(** The session with its data loader wrapped in a recorder that has noted
    nothing yet. *)
Definition spied {DataLoader Batch M : Type}
    (s : @session DataLoader M) : @session (recorder DataLoader Batch) M :=
  {| trainer :=
       {| callback_metrics := callback_metrics (trainer s);
          current_epoch := current_epoch (trainer s);
          train_dataloader :=
            {| inner := train_dataloader (trainer s); calls := [] |} |};
     pl_module := pl_module s;
     memory := memory s;
     tracker := tracker s;
     current_iteration := current_iteration s |}.



End TrainingLoop.

(** ** [SpatialStereoscope] *)

Module SpatialStereoscope.

(** An AnnData object: the number of observations, the columns of [obs],
    and everything else it carries (counts, [var], [uns] with the scvi
    registry). *)
Record AnnData (Rest : Type) := {
  n_obs : nat;
  obs : gmap string (list Z);
  rest : Rest
}.
Arguments n_obs {Rest} _.
Arguments obs {Rest} _.
Arguments rest {Rest} _.

(** [np.arange(n)]. *)
Definition arange (n : nat) : list Z := Z.of_nat <$> seq 0 n.

(** [adata.obs[column] = values], in place. *)
Definition set_obs {Rest} (column : string) (values : list Z)
    (adata : AnnData Rest) : AnnData Rest :=
  {| n_obs := n_obs adata;
     obs := <[column := values]> (obs adata);
     rest := rest adata |}.

Section Constructor.
Context {Rest Base Params Kwargs Deconv InitParams : Type}.
(** [scvi.data.register_tensor_from_anndata(adata, registry_key,
    adata_attr_name, adata_key_name)]: the object as the call leaves it, and
    the exception if it raised. *)
Variable register_tensor_from_anndata :
  AnnData Rest -> string -> string -> string -> AnnData Rest * option exn.
(** [BaseModelClass.__init__(adata, use_gpu=...)]. *)
Variable BaseModelClass_init :
  AnnData Rest -> bool -> AnnData Rest * result Base.
(** [SpatialDeconv(n_spots=..., params=..., prior_weight=..., **kwargs)]. *)
Variable SpatialDeconv : nat -> Params -> string -> Kwargs -> result Deconv.
(** [self._get_init_params(locals())]. *)
Variable _get_init_params :
  AnnData Rest -> Params -> bool -> string -> Kwargs -> InitParams.

Record t := {
  base : Base;
  model : Deconv;
  _model_summary_string : string;
  init_params_ : InitParams
}.

Definition newline : string := String (ascii_of_nat 10) EmptyString.

(** The caller's [st_adata] as the constructor leaves it, and the new model
    or the exception that ended the construction. *)
Definition __init__ (st_adata : AnnData Rest) (params : Params)
    (use_gpu : bool) (prior_weight : string) (model_kwargs : Kwargs)
    : AnnData Rest * result t :=
  let st_adata := set_obs "_indices" (arange (n_obs st_adata)) st_adata in
  match register_tensor_from_anndata st_adata "ind_x" "obs" "_indices" with
  | (st_adata, Some e) => (st_adata, Raise e)
  | (st_adata, None) =>
      match BaseModelClass_init st_adata use_gpu with
      | (st_adata, Raise e) => (st_adata, Raise e)
      | (st_adata, Ok base) =>
          match SpatialDeconv (n_obs st_adata) params prior_weight model_kwargs with
          | Raise e => (st_adata, Raise e)
          | Ok model =>
              (st_adata,
               Ok {| base := base;
                     model := model;
                     _model_summary_string :=
                       "RNADeconv Model with params: " +:+ newline
                         +:+ "n_spots: " +:+ pretty (n_obs st_adata);
                     init_params_ :=
                       _get_init_params st_adata params use_gpu prior_weight
                         model_kwargs |})
          end
      end
  end.

End Constructor.

(** The two collaborators' effect on the caller's object stays off [obs]. *)
Definition keeps_obs {Rest} (before after : AnnData Rest) : Prop :=
  n_obs after = n_obs before /\ obs after = obs before.

End SpatialStereoscope.

(** ** [SaveBestState] over the epochs of a run *)

Module Monitoring.

Section Run.
Context {DataLoader M : Type} `{StatefulModel M}.

(** [on_epoch_end] called at the end of one epoch after the other.  An
    epoch is what its training did to the heap and the trainer as the hook
    finds it; the events of the calls are collected in order. *)
Fixpoint on_epochs_end (self : SaveBestState.t)
    (epochs : list ((heap -> heap) * Trainer DataLoader))
    (pl_module : LightningModule M) (h : heap)
    : SaveBestState.t * heap * list event :=
  match epochs with
  | [] => (self, h, [])
  | (train, trainer) :: rest =>
      let '(self1, h1, out1) :=
        SaveBestState.on_epoch_end self trainer pl_module (train h) in
      let '(self2, h2, out2) := on_epochs_end self1 rest pl_module h1 in
      (self2, h2, out1 ++ out2)
  end.

(** The values the epochs logged under the monitored name, as the hook
    compares them. *)
Definition logged (self : SaveBestState.t)
    (epochs : list ((heap -> heap) * Trainer DataLoader)) : list spec_float :=
  omap (fun epoch =>
          item <$> callback_metrics epoch.2 !! SaveBestState.monitor self)
    epochs.

End Run.

End Monitoring.

(** ** [RNAStereoscope] *)

Module RNAStereoscope.

(** What ends a construction: an exception of a collaborator, or the
    [KeyError] of a missing summary statistic. *)
Inductive raised : Type :=
| Propagated (e : exn)
| KeyError (key : string).

Section Constructor.
Context {Rest Base Kwargs Deconv InitParams : Type}.
(** [BaseModelClass.__init__(adata, use_gpu=...)]. *)
Variable BaseModelClass_init :
  SpatialStereoscope.AnnData Rest -> bool
  -> SpatialStereoscope.AnnData Rest * result Base.
(** [self.summary_stats], set by the base class. *)
Variable summary_stats : Base -> gmap string nat.
(** [RNADeconv(n_genes=..., n_labels=..., **model_kwargs)]. *)
Variable RNADeconv : nat -> nat -> Kwargs -> result Deconv.
(** [self._get_init_params(locals())]. *)
Variable _get_init_params :
  SpatialStereoscope.AnnData Rest -> bool -> Kwargs -> InitParams.

Record t := {
  base : Base;
  n_genes : nat;
  n_labels : nat;
  model : Deconv;
  _model_summary_string : string;
  init_params_ : InitParams
}.

(** The caller's [sc_adata] as the constructor leaves it, and the new model
    or what ended the construction. *)
Definition __init__ (sc_adata : SpatialStereoscope.AnnData Rest)
    (use_gpu : bool) (model_kwargs : Kwargs)
    : SpatialStereoscope.AnnData Rest * (t + raised) :=
  match BaseModelClass_init sc_adata use_gpu with
  | (sc_adata, Raise e) => (sc_adata, inr (Propagated e))
  | (sc_adata, Ok base) =>
      match summary_stats base !! "n_vars" with
      | None => (sc_adata, inr (KeyError "n_vars"))
      | Some n_genes =>
          match summary_stats base !! "n_labels" with
          | None => (sc_adata, inr (KeyError "n_labels"))
          | Some n_labels =>
              match RNADeconv n_genes n_labels model_kwargs with
              | Raise e => (sc_adata, inr (Propagated e))
              | Ok model =>
                  (sc_adata,
                   inl {| base := base;
                          n_genes := n_genes;
                          n_labels := n_labels;
                          model := model;
                          _model_summary_string :=
                            "RNADeconv Model with params: "
                              +:+ SpatialStereoscope.newline
                              +:+ "n_genes: " +:+ pretty n_genes
                              +:+ ", n_labels: " +:+ pretty n_labels;
                          init_params_ :=
                            _get_init_params sc_adata use_gpu model_kwargs |})
              end
          end
      end
  end.

End Constructor.

End RNAStereoscope.

(** ** Sample objects *)

Module Sample.

Definition one : spec_float := S754_finite false 1 0.

(** [SaveBestState(monitor="elbo_validation", mode="min", period=period)]. *)
Definition tracker (period : Z) : SaveBestState.t :=
  {| SaveBestState.monitor := "elbo_validation";
     SaveBestState.verbose := false;
     SaveBestState.period := period;
     SaveBestState.epochs_since_last_check := 0;
     SaveBestState.best_model_state := None;
     SaveBestState.monitor_op := np_less;
     SaveBestState.best_model_metric_val := np_Inf;
     SaveBestState.mode := "min" |}.

(** A data loader that counts how often it was resampled. *)
#[global] Instance counting_loader : LabelledLoader nat := {
  resample_labels := S
}.

Definition trainer (logs : gmap string metric) : Trainer nat :=
  {| callback_metrics := logs; current_epoch := 0; train_dataloader := 0 |}.

Definition elbo_logged : gmap string metric :=
  {[ "elbo_validation" := FloatMetric one ]}.

(** A module with two tensors, and a heap that holds them. *)
Definition net : nn_Module :=
  {| named_tensors := [("weight", 0); ("bias", 1)] |}.

Definition net_heap : heap := [[10; 20]; [30]]%Z.

Definition pl_module : LightningModule nn_Module := {| model := net |}.

(** A model without tensors whose [load_state_dict] accepts whatever it is
    given. *)
Inductive stateless : Type := Stateless.

#[global] Instance stateless_model : StatefulModel stateless := {
  state_dict := fun _ => [];
  load_state_dict := fun _ _ h => (Ok (), h)
}.

(** A loop of two batches per epoch that updates and logs nothing; the
    batches tell how often the loader had been resampled when they were
    drawn. *)
Definition two_batches (loader : nat) : list nat * nat :=
  ([loader; loader + 10], loader).

Definition no_update (batch : nat) (kl_weight : Q) (h : heap) : heap := h.

Definition no_logs (h : heap) : gmap string metric := ∅.

Definition session : @TrainingLoop.session nat nn_Module :=
  {| TrainingLoop.trainer := trainer ∅;
     TrainingLoop.pl_module := pl_module;
     TrainingLoop.memory := net_heap;
     TrainingLoop.tracker := tracker 1;
     TrainingLoop.current_iteration := 0 |}.

(** An AnnData of three observations whose remaining part is the scvi data
    registry, with collaborators that only touch the registry. *)
Definition adata : SpatialStereoscope.AnnData (gmap string (string * string)) :=
  {| SpatialStereoscope.n_obs := 3;
     SpatialStereoscope.obs := ∅;
     SpatialStereoscope.rest := ∅ |}.

Definition register
    (a : SpatialStereoscope.AnnData (gmap string (string * string)))
    (registry_key adata_attr_name adata_key_name : string)
    : SpatialStereoscope.AnnData (gmap string (string * string)) * option exn :=
  ({| SpatialStereoscope.n_obs := SpatialStereoscope.n_obs a;
      SpatialStereoscope.obs := SpatialStereoscope.obs a;
      SpatialStereoscope.rest :=
        <[registry_key := (adata_attr_name, adata_key_name)]>
          (SpatialStereoscope.rest a) |},
   None).

Definition base_init
    (a : SpatialStereoscope.AnnData (gmap string (string * string)))
    (use_gpu : bool)
    : SpatialStereoscope.AnnData (gmap string (string * string)) * result unit :=
  (a, Ok ()).

Definition deconv (n_spots : nat) (params : unit) (prior_weight : string)
    (kwargs : unit) : result nat :=
  Ok n_spots.

Definition init_params
    (a : SpatialStereoscope.AnnData (gmap string (string * string)))
    (params : unit) (use_gpu : bool) (prior_weight : string) (kwargs : unit)
    : unit := ().

End Sample.

(** ** Runs of a [torch.nn.Module] and what a restore brings back *)

Module Restoring.

(** Training that works in place on the module's tensors: it may allocate,
    but it writes to no other storage that exists, and it keeps the shapes
    of the module's tensors. *)
Definition in_place (m : nn_Module) (train : heap -> heap) : Prop :=
  forall h,
    length h <= length (train h)
    /\ (forall l, l < length h -> l ∉ (named_tensors m).*2 ->
          read (train h) l = read h l)
    /\ (forall l, l ∈ (named_tensors m).*2 ->
          length (read (train h) l) = length (read h l)).

Section Run.
Context {DataLoader : Type}.

(** For every epoch of a run, the value it logged under the monitored name
    and the heap as its training left it, which is the heap the hook of that
    epoch sees. *)
Fixpoint checkpoints (self : SaveBestState.t)
    (epochs : list ((heap -> heap) * Trainer DataLoader))
    (pl_module : LightningModule nn_Module) (h : heap)
    : list (option spec_float * heap) :=
  match epochs with
  | [] => []
  | (train, trainer) :: rest =>
      let '(self1, h1, _) :=
        SaveBestState.on_epoch_end self trainer pl_module (train h) in
      (item <$> callback_metrics trainer !! SaveBestState.monitor self, train h)
        :: checkpoints self1 rest pl_module h1
  end.

End Run.

(** The module's tensors have in [h] the shapes they have in [h0]. *)
Definition shaped (m : nn_Module) (h0 h : heap) : Prop :=
  forall k p, (k, p) ∈ named_tensors m ->
    length (read h p) = length (read h0 p).

(** In [h] the dictionary [snap] holds, in storage at or above [base], the
    module's tensors as they were in [hcap]. *)
Definition holds (base : nat) (m : nn_Module) (snap : ordered_dict)
    (hcap h : heap) : Prop :=
  keys snap = keys (named_tensors m)
  /\ forall k p, (k, p) ∈ named_tensors m ->
       exists src,
         assoc k snap = Some src /\ base <= src < length h
         /\ read h src = read hcap p.

(** The tracker's snapshot, if it has one, holds the module's tensors of
    one of the checkpoints [seen], the one that logged the best value. *)
Definition tracked (m : nn_Module) (h0 : heap) (self : SaveBestState.t)
    (h : heap) (seen : list (option spec_float * heap)) : Prop :=
  length h0 <= length h
  /\ shaped m h0 h
  /\ forall snap,
       SaveBestState.best_model_state self = Some snap ->
       exists hcap,
         (Some (SaveBestState.best_model_metric_val self), hcap) ∈ seen
         /\ shaped m h0 hcap
         /\ holds (length h0) m snap hcap h.

End Restoring.

(** ** Sample runs *)

Module SampleRun.

Definition half : spec_float := S754_finite false 1 (-1).

(** Training that overwrites the first tensor in place. *)
Definition train_step (h : heap) : heap := <[0 := [11; 22]%Z]> h.

(** Three epochs: 1.0 logged, nothing logged, 0.5 logged as a tensor. *)
Definition epochs : list ((heap -> heap) * Trainer nat) :=
  [(train_step, Sample.trainer Sample.elbo_logged);
   (train_step, Sample.trainer ∅);
   (train_step,
    Sample.trainer {[ "elbo_validation" := TensorMetric half ]})].

(** Three epochs that log nothing. *)
Definition silent_epochs : list ((heap -> heap) * Trainer nat) :=
  [(train_step, Sample.trainer ∅);
   (train_step, Sample.trainer ∅);
   (train_step, Sample.trainer ∅)].

(** Training that adds one to every word of the first tensor, in place. *)
Definition gradient_step (h : heap) : heap := alter (fmap Z.succ) 0 h.

(** Three epochs of it: 0.5 logged, nothing logged, 1.0 logged. *)
Definition learning_epochs : list ((heap -> heap) * Trainer nat) :=
  [(gradient_step,
    Sample.trainer {[ "elbo_validation" := TensorMetric half ]});
   (gradient_step, Sample.trainer ∅);
   (gradient_step, Sample.trainer Sample.elbo_logged)].

Definition nan_logged : gmap string metric :=
  {[ "elbo_validation" := FloatMetric S754_nan ]}.

(** The model the sample collaborators of [SpatialStereoscope] build. *)
Definition spatial_model
    : @SpatialStereoscope.t unit nat unit :=
  {| SpatialStereoscope.base := ();
     SpatialStereoscope.model := 3;
     SpatialStereoscope._model_summary_string :=
       "RNADeconv Model with params: " +:+ SpatialStereoscope.newline
         +:+ "n_spots: 3";
     SpatialStereoscope.init_params_ := () |}.

End SampleRun.

(** * Part II: properties *)

(** ** KL annealing *)

Section AnnealingFacts.
Import Annealing.

(** The thresholds of [test_annealing_procedures]: after two epochs a
    one-epoch warmup is over, a five-epoch warmup is still proceeding. *)
Example annealing_over : (99 # 100 <= kl_weight (Some 1%Z) 2)%Q.
Proof. vm_compute. discriminate. Qed.

Example annealing_proceeding : (kl_weight (Some 5%Z) 2 <= 99 # 100)%Q.
Proof. vm_compute. discriminate. Qed.

Lemma ramp_monotone (w e1 e2 : Z) :
  (0 < w)%Z -> (e1 <= e2)%Z ->
  (inject_Z e1 / inject_Z w <= inject_Z e2 / inject_Z w)%Q.
Proof.
  intros Hw He. unfold Qdiv.
  apply Qmult_le_compat_r.
  - now rewrite <- Zle_Qle.
  - apply Qlt_le_weak, Qinv_lt_0_compat.
    change 0%Q with (inject_Z 0). now rewrite <- Zlt_Qlt.
Qed.

Lemma ramp_saturated (w e : Z) :
  (0 < w)%Z -> (w <= e)%Z -> (1 <= inject_Z e / inject_Z w)%Q.
Proof.
  intros Hw He.
  assert (Hq : (0 < inject_Z w)%Q).
  { change 0%Q with (inject_Z 0). now rewrite <- Zlt_Qlt. }
  apply Qle_shift_div_l; [exact Hq|].
  rewrite Qmult_1_l. now rewrite <- Zle_Qle.
Qed.

Lemma Qmin_one_saturated (x : Q) : (1 <= x)%Q -> Qmin 1 x = 1%Q.
Proof.
  intros Hx. unfold Qmin, GenericMinMax.gmin.
  destruct (1 ?= x)%Q eqn:Hc; try reflexivity.
  rewrite <- Qgt_alt in Hc. exfalso. eapply Qlt_not_le; eassumption.
Qed.

Lemma kl_weight_monotone (w e1 e2 : Z) :
  (0 < w)%Z -> (e1 <= e2)%Z ->
  (kl_weight (Some w) e1 <= kl_weight (Some w) e2)%Q.
Proof.
  intros Hw He. unfold kl_weight.
  destruct (Z.eqb_spec w 0) as [->|_]; [lia|].
  apply Q.min_le_compat_l. now apply ramp_monotone.
Qed.

Lemma kl_weight_saturated (w e : Z) :
  (0 < w)%Z -> (w <= e)%Z -> kl_weight (Some w) e = 1%Q.
Proof.
  intros Hw He. unfold kl_weight.
  destruct (Z.eqb_spec w 0) as [->|_]; [lia|].
  apply Qmin_one_saturated. now apply ramp_saturated.
Qed.

Lemma kl_weight_range (w : option Z) (e : Z) :
  (0 <= e)%Z -> (forall n, w = Some n -> 0 <= n)%Z ->
  (0 <= kl_weight w e <= 1)%Q.
Proof.
  intros He Hw. unfold kl_weight.
  destruct w as [n|]; [|split; discriminate].
  destruct (Z.eqb_spec n 0) as [->|Hn]; [split; discriminate|].
  assert (Hpos : (0 < n)%Z) by (specialize (Hw n eq_refl); lia).
  split.
  - apply Q.min_glb; [discriminate|].
    apply Qle_shift_div_l.
    + change 0%Q with (inject_Z 0). now rewrite <- Zlt_Qlt.
    + rewrite Qmult_0_l. change 0%Q with (inject_Z 0). now rewrite <- Zle_Qle.
  - apply Q.le_min_l.
Qed.

(** C6.  For a positive warmup length [w] and epoch counters
    [0 <= e1 <= e2 <= w] the weight does not decrease from [e1] to [e2], it
    is exactly 1 at [e = w] and stays 1 at every later epoch; with the warmup
    length unset or zero it is exactly 1 at every epoch. *)
Theorem kl_weight_ramp (w e1 e2 : Z) :
  (0 < w)%Z -> (0 <= e1)%Z -> (e1 <= e2)%Z -> (e2 <= w)%Z ->
  (kl_weight (Some w) e1 <= kl_weight (Some w) e2)%Q
  /\ kl_weight (Some w) w = 1%Q
  /\ (forall e, (w <= e)%Z -> kl_weight (Some w) e = 1%Q)
  /\ (forall e, kl_weight None e = 1%Q /\ kl_weight (Some 0%Z) e = 1%Q).
Proof.
  intros Hw H0 H12 H2w. repeat split.
  - now apply kl_weight_monotone.
  - apply kl_weight_saturated; lia.
  - intros e He. now apply kl_weight_saturated.
Qed.

Lemma kl_weight_ramp_witness :
  (kl_weight (Some 5%Z) 1 <= kl_weight (Some 5%Z) 3)%Q
  /\ kl_weight (Some 5%Z) 5 = 1%Q
  /\ (forall e, (5 <= e)%Z -> kl_weight (Some 5%Z) e = 1%Q)
  /\ (forall e, kl_weight None e = 1%Q /\ kl_weight (Some 0%Z) e = 1%Q).
Proof. apply (kl_weight_ramp 5 1 3); lia. Defined.

End AnnealingFacts.

(** ** The constructor of [SaveBestState] *)

Section Construction.
Import SaveBestState.

Lemma known_mode (mode : string) :
  bool_decide (mode ∈ ["min"; "max"]) = true <-> mode = "min" \/ mode = "max".
Proof.
  rewrite bool_decide_eq_true, !elem_of_cons, elem_of_nil. tauto.
Qed.

Lemma init_with_unknown otherwise monitor mode verbose period :
  mode <> "min" -> mode <> "max" ->
  init_with otherwise monitor mode verbose period
  = Raise (ValueError ("SaveBestState mode " +:+ mode +:+ " is unknown")).
Proof.
  intros Hmin Hmax. unfold init_with.
  destruct (bool_decide (mode ∈ ["min"; "max"])) eqn:Hin; [|reflexivity].
  apply known_mode in Hin. tauto.
Qed.

Lemma init_with_min otherwise monitor verbose period :
  init_with otherwise monitor "min" verbose period
  = Ok {| monitor := monitor; verbose := verbose; period := period;
          epochs_since_last_check := 0; best_model_state := None;
          monitor_op := np_less; best_model_metric_val := np_Inf;
          mode := "min" |}.
Proof. reflexivity. Qed.

Lemma init_with_max otherwise monitor verbose period :
  init_with otherwise monitor "max" verbose period
  = Ok {| monitor := monitor; verbose := verbose; period := period;
          epochs_since_last_check := 0; best_model_state := None;
          monitor_op := np_greater; best_model_metric_val := SFopp np_Inf;
          mode := "max" |}.
Proof. reflexivity. Qed.

Lemma init_cases (mode : string) :
  (mode = "min" \/ mode = "max") \/ (mode <> "min" /\ mode <> "max").
Proof.
  destruct (decide (mode = "min")), (decide (mode = "max")); tauto.
Qed.

Lemma init_fresh monitor mode verbose period self :
  __init__ monitor mode verbose period = Ok self ->
  best_model_state self = None /\ epochs_since_last_check self = 0%Z
  /\ mode_agrees self.
Proof.
  unfold __init__. intros Hinit.
  destruct (init_cases mode) as [[->| ->]|[Hmin Hmax]].
  - rewrite init_with_min in Hinit. injection Hinit as <-.
    unfold mode_agrees; simpl; tauto.
  - rewrite init_with_max in Hinit. injection Hinit as <-.
    unfold mode_agrees; simpl; tauto.
  - rewrite init_with_unknown in Hinit by assumption. discriminate.
Qed.

(** C5.  A mode other than "min" and "max" makes the constructor raise a
    [ValueError]; "min" starts from +infinity with [np.less], "max" from
    -infinity with [np.greater]. *)
Theorem init_mode_configuration (monitor mode : string) (verbose : bool)
    (period : Z) :
  (mode <> "min" -> mode <> "max" ->
     exists msg, __init__ monitor mode verbose period = Raise (ValueError msg))
  /\ (exists self, __init__ monitor "min" verbose period = Ok self
        /\ best_model_metric_val self = S754_infinity false
        /\ monitor_op self = np_less
        /\ forall a b, call (monitor_op self) a b = SFltb a b)
  /\ (exists self, __init__ monitor "max" verbose period = Ok self
        /\ best_model_metric_val self = S754_infinity true
        /\ monitor_op self = np_greater
        /\ forall a b, call (monitor_op self) a b = SFltb b a).
Proof.
  split; [|split].
  - intros Hmin Hmax. eexists. now apply init_with_unknown.
  - eexists. split; [apply init_with_min|]. simpl. auto.
  - eexists. split; [apply init_with_max|]. simpl. auto.
Qed.

(** C8.  Whatever stands in the constructor's last [else] branch, the
    constructor returns the same: the branch is never taken.  Hence two
    trackers built with the same mode compare alike, whatever their monitor
    names. *)
Theorem init_fallback_unreachable (otherwise : string -> comparison)
    (monitor monitor' mode : string) (verbose : bool) (period : Z) :
  init_with otherwise monitor mode verbose period
    = __init__ monitor mode verbose period
  /\ (forall self self',
        __init__ monitor mode verbose period = Ok self ->
        __init__ monitor' mode verbose period = Ok self' ->
        monitor_op self = monitor_op self'
        /\ best_model_metric_val self = best_model_metric_val self'
        /\ SaveBestState.mode self = SaveBestState.mode self').
Proof.
  unfold __init__.
  destruct (init_cases mode) as [[->| ->]|[Hmin Hmax]].
  - split; [now rewrite !init_with_min|].
    rewrite !init_with_min. intros ? ? [= <-] [= <-]. auto.
  - split; [now rewrite !init_with_max|].
    rewrite !init_with_max. intros ? ? [= <-] [= <-]. auto.
  - split; [now rewrite !init_with_unknown|].
    rewrite init_with_unknown by assumption. discriminate.
Qed.

End Construction.

(** ** One call of [on_epoch_end], case by case *)

Section EpochEnd.
Import SaveBestState.
Context {DataLoader M : Type} `{StatefulModel M}.
Implicit Types (self : t) (trainer : Trainer DataLoader)
  (pl_module : LightningModule M) (h : heap).

Lemma on_epoch_end_waiting self trainer pl_module h :
  (epochs_since_last_check self + 1 < period self)%Z ->
  on_epoch_end self trainer pl_module h
  = (set_epochs_since_last_check (epochs_since_last_check self + 1) self, h, []).
Proof.
  intros Hlt. unfold on_epoch_end. cbn.
  destruct (Z.leb_spec (period self) (epochs_since_last_check self + 1));
    [lia|reflexivity].
Qed.

Lemma on_epoch_end_absent self trainer pl_module h :
  (period self <= epochs_since_last_check self + 1)%Z ->
  callback_metrics trainer !! monitor self = None ->
  on_epoch_end self trainer pl_module h
  = (set_epochs_since_last_check 0 self, h, [skipping (monitor self)]).
Proof.
  intros Hle Hlog. unfold on_epoch_end. cbn.
  destruct (Z.leb_spec (period self) (epochs_since_last_check self + 1));
    [|lia].
  now rewrite Hlog.
Qed.

Lemma on_epoch_end_worse self trainer pl_module h current :
  (period self <= epochs_since_last_check self + 1)%Z ->
  callback_metrics trainer !! monitor self = Some current ->
  check_monitor_top self (item current) = false ->
  on_epoch_end self trainer pl_module h
  = (set_epochs_since_last_check 0 self, h, []).
Proof.
  intros Hle Hlog Hcmp. unfold on_epoch_end. cbn.
  destruct (Z.leb_spec (period self) (epochs_since_last_check self + 1));
    [|lia].
  rewrite Hlog. unfold check_monitor_top in *. cbn. now rewrite Hcmp.
Qed.

Lemma on_epoch_end_improved self trainer pl_module h current :
  (period self <= epochs_since_last_check self + 1)%Z ->
  callback_metrics trainer !! monitor self = Some current ->
  check_monitor_top self (item current) = true ->
  on_epoch_end self trainer pl_module h
  = (set_best (deepcopy (state_dict (model pl_module)) h).1 (item current)
       (set_epochs_since_last_check 0 self),
     (deepcopy (state_dict (model pl_module)) h).2,
     if verbose self
     then [RankZeroInfo (current_epoch trainer) (monitor self)]
     else []).
Proof.
  intros Hle Hlog Hcmp. unfold on_epoch_end. cbn.
  destruct (Z.leb_spec (period self) (epochs_since_last_check self + 1));
    [|lia].
  rewrite Hlog. unfold check_monitor_top in *. cbn. rewrite Hcmp.
  now destruct (deepcopy _ h).
Qed.

Lemma check_monitor_top_by_mode self current :
  mode_agrees self ->
  check_monitor_top self current
  = if String.eqb (mode self) "min"
    then SFltb current (best_model_metric_val self)
    else SFltb (best_model_metric_val self) current.
Proof.
  unfold check_monitor_top. intros [[-> ->]|[-> ->]]; reflexivity.
Qed.

Lemma on_epoch_end_mode_agrees self trainer pl_module h :
  mode_agrees self -> mode_agrees (on_epoch_end self trainer pl_module h).1.1.
Proof.
  intros Hagree. unfold on_epoch_end. cbn.
  destruct (_ <=? _)%Z; [|exact Hagree].
  destruct (_ !! _); [|exact Hagree].
  destruct (check_monitor_top _ _); [|exact Hagree].
  destruct (deepcopy _ h). exact Hagree.
Qed.

(** C2.  Every call adds one to the counter.  While the counter stays
    below [period] nothing else changes.  Otherwise the counter goes back to
    0 and the logged value is compared with the best one so far, by [<] in
    "min" mode and by [>] in "max" mode: exactly when it is better it becomes
    the best value and a deep copy of the module's state dictionary becomes
    the stored snapshot. *)
Theorem on_epoch_end_step self trainer pl_module h :
  mode_agrees self ->
  let counter := (epochs_since_last_check self + 1)%Z in
  let best := best_model_metric_val self in
  let better v :=
    if String.eqb (mode self) "min" then SFltb v best else SFltb best v in
  let '(self', h', _) := on_epoch_end self trainer pl_module h in
  if decide (counter < period self)%Z then
    self' = set_epochs_since_last_check counter self /\ h' = h
  else
    epochs_since_last_check self' = 0%Z
    /\ match callback_metrics trainer !! monitor self with
       | Some current =>
           if better (item current) then
             best_model_metric_val self' = item current
             /\ (best_model_state self', h')
                = (Some (deepcopy (state_dict (model pl_module)) h).1,
                   (deepcopy (state_dict (model pl_module)) h).2)
           else
             best_model_metric_val self' = best
             /\ best_model_state self' = best_model_state self
             /\ h' = h
       | None =>
           best_model_metric_val self' = best
           /\ best_model_state self' = best_model_state self
           /\ h' = h
       end.
Proof.
  intros Hagree counter best better.
  destruct (decide (counter < period self)%Z) as [Hlt|Hge].
  - rewrite on_epoch_end_waiting by exact Hlt. auto.
  - assert (Hle : (period self <= epochs_since_last_check self + 1)%Z)
      by (subst counter; lia).
    destruct (callback_metrics trainer !! monitor self) as [current|] eqn:Hlog.
    + pose proof (check_monitor_top_by_mode self (item current) Hagree) as Hcmp.
      fold best in Hcmp. fold (better (item current)) in Hcmp.
      destruct (better (item current)).
      * rewrite (on_epoch_end_improved _ _ _ _ current) by assumption.
        cbn. auto.
      * rewrite (on_epoch_end_worse _ _ _ _ current) by assumption.
        cbn. auto.
    + rewrite on_epoch_end_absent by assumption. cbn. auto.
Qed.

(** C9.  A call made before the check interval has elapsed, or one that
    finds the metric missing or not better, leaves the heap and every field
    but [epochs_since_last_check] as they were. *)
Theorem on_epoch_end_frame self trainer pl_module h :
  (epochs_since_last_check self + 1 < period self)%Z
  \/ callback_metrics trainer !! monitor self = None
  \/ (exists current,
        callback_metrics trainer !! monitor self = Some current
        /\ check_monitor_top self (item current) = false) ->
  let '(self', h', _) := on_epoch_end self trainer pl_module h in
  self' = set_epochs_since_last_check (epochs_since_last_check self') self
  /\ best_model_state self' = best_model_state self
  /\ best_model_metric_val self' = best_model_metric_val self
  /\ h' = h.
Proof.
  intros Hcase.
  destruct (Z.lt_ge_cases (epochs_since_last_check self + 1) (period self))
    as [Hlt|Hle].
  { rewrite on_epoch_end_waiting by exact Hlt. cbn. auto. }
  destruct Hcase as [Hlt|[Hlog|(current & Hlog & Hcmp)]].
  - lia.
  - rewrite on_epoch_end_absent by assumption. cbn. auto.
  - rewrite (on_epoch_end_worse _ _ _ _ current) by assumption. cbn. auto.
Qed.

(** C4, as the code has it.  When the monitored metric is not among the
    logged ones, the call returns normally, the best value, the snapshot and
    the heap are unchanged, and the [RuntimeWarning] is emitted exactly on the
    calls that reach the check interval; the calls before it emit nothing. *)
Theorem on_epoch_end_metric_absent self trainer pl_module h :
  callback_metrics trainer !! monitor self = None ->
  let '(self', h', out) := on_epoch_end self trainer pl_module h in
  best_model_metric_val self' = best_model_metric_val self
  /\ best_model_state self' = best_model_state self
  /\ h' = h
  /\ out = if decide (period self <= epochs_since_last_check self + 1)%Z
           then [skipping (monitor self)]
           else [].
Proof.
  intros Hlog. case_decide as Hle.
  - rewrite on_epoch_end_absent by assumption. cbn. auto.
  - rewrite on_epoch_end_waiting by lia. cbn. auto.
Qed.

(** C1, what the code does.  A tracker that has stored no snapshot makes no
    check of its own in [on_train_end]: the absent state goes straight into
    the module's [load_state_dict], whose answer is the hook's answer. *)
Theorem on_train_end_without_snapshot (monitor mode : string) (verbose : bool)
    (period : Z) self trainer pl_module h :
  __init__ monitor mode verbose period = Ok self ->
  on_train_end self trainer pl_module h
  = load_state_dict (model pl_module) None h.
Proof.
  intros Hinit. apply init_fresh in Hinit as (Hnone & _ & _).
  unfold on_train_end. now rewrite Hnone.
Qed.

End EpochEnd.

(** ** Reading the heap *)

Lemma read_lookup (h : heap) (l : loc) (v : tensor) :
  h !! l = Some v -> read h l = v.
Proof. unfold read. now intros ->. Qed.

Lemma read_prefix (h h' : heap) (l : loc) :
  h `prefix_of` h' -> l < length h -> read h' l = read h l.
Proof.
  intros Hpre Hl. destruct (lookup_lt_is_Some_2 h l Hl) as [v Hv].
  rewrite (read_lookup h l v Hv).
  apply read_lookup. eapply prefix_lookup_Some; eassumption.
Qed.

Lemma read_alloc (h : heap) (v : tensor) : read (h ++ [v]) (length h) = v.
Proof.
  apply read_lookup. rewrite lookup_app_r by lia.
  now rewrite Nat.sub_diag.
Qed.

Lemma read_insert_eq (h : heap) (l : loc) (v : tensor) :
  l < length h -> read (<[l := v]> h) l = v.
Proof. intros Hl. apply read_lookup. now apply list_lookup_insert_eq. Qed.

Lemma read_insert_ne (h : heap) (l l' : loc) (v : tensor) :
  l <> l' -> read (<[l := v]> h) l' = read h l'.
Proof. intros Hne. unfold read. now rewrite list_lookup_insert_ne. Qed.

(** ** Association lists *)

Lemma assoc_elem_of {K V} `{EqDecision K} (k : K) (v : V) (d : list (K * V)) :
  assoc k d = Some v -> (k, v) ∈ d.
Proof.
  induction d as [|[k' v'] d IH]; cbn; [discriminate|].
  case_decide as Hk.
  - intros [= ->]. subst. apply elem_of_cons. now left.
  - intros Hd. apply elem_of_cons. right. now apply IH.
Qed.

Lemma assoc_NoDup {K V} `{EqDecision K} (k : K) (v : V) (d : list (K * V)) :
  NoDup d.*1 -> (k, v) ∈ d -> assoc k d = Some v.
Proof.
  induction d as [|[k' v'] d IH]; cbn; intros Hnd Hin.
  - now apply elem_of_nil in Hin.
  - apply NoDup_cons in Hnd as [Hfresh Hnd].
    apply elem_of_cons in Hin as [[= <- <-]|Hin].
    + now rewrite decide_True.
    + rewrite decide_False; [now apply IH|].
      intros <-. apply Hfresh. apply list_elem_of_fmap. now exists (k, v).
Qed.

Lemma assoc_None {K V} `{EqDecision K} (k : K) (d : list (K * V)) :
  assoc k d = None <-> k ∉ d.*1.
Proof.
  induction d as [|[k' v'] d IH]; cbn.
  - split; [intros _; apply not_elem_of_nil|done].
  - rewrite not_elem_of_cons. case_decide as Hk; [|rewrite IH; tauto].
    split; [discriminate|tauto].
Qed.

(** Two dictionaries with the same keys in the same order, entry by entry
    related by [R], answer every lookup with related values. *)
Lemma assoc_Forall2 {K V W} `{EqDecision K} (R : V -> W -> Prop) (k : K)
    (d : list (K * V)) (d' : list (K * W)) :
  Forall2 (fun e e' => e'.1 = e.1 /\ R e.2 e'.2) d d' ->
  option_Forall2 R (assoc k d) (assoc k d').
Proof.
  induction 1 as [|[k1 v] [k2 w] d d' [Hk HR] _ IH]; cbn in *.
  - constructor.
  - subst k2. case_decide; [now constructor|exact IH].
Qed.

Lemma Forall2_same_keys {V W} (R : V -> W -> Prop)
    (d : list (string * V)) (d' : list (string * W)) :
  Forall2 (fun e e' => e'.1 = e.1 /\ R e.2 e'.2) d d' -> d'.*1 = d.*1.
Proof.
  induction 1 as [|[k1 v] [k2 w] d d' [Hk _] _ IH]; cbn in *; congruence.
Qed.

(** ** [deepcopy] *)

Lemma copied_prefix (h0 h h' : heap) (l l' : loc) :
  h `prefix_of` h' -> copied h0 h l l' -> copied h0 h' l l'.
Proof.
  intros Hpre [[Hlo Hhi] Hread]. pose proof (prefix_length _ _ Hpre).
  repeat split; [lia..|].
  now rewrite (read_prefix h h') by assumption.
Qed.

Lemma deepcopy_items_spec (h0 : heap) (items : ordered_dict) :
  forall (memo : list (loc * loc)) (h : heap),
    h0 `prefix_of` h ->
    Forall (fun e => e.2 < length h0) items ->
    (forall l l', assoc l memo = Some l' -> l < length h0 /\ copied h0 h l l') ->
    h `prefix_of` (deepcopy_items items memo h).2
    /\ Forall2 (fun e e' =>
                  e'.1 = e.1 /\ copied h0 (deepcopy_items items memo h).2 e.2 e'.2)
         items (deepcopy_items items memo h).1.
Proof.
  induction items as [|[k l] items IH]; intros memo h Hpre Hall Hmemo; cbn.
  { split; [reflexivity|constructor]. }
  apply Forall_cons in Hall as [Hl Hall]. cbn in Hl.
  destruct (assoc l memo) as [l'|] eqn:Hseen.
  - specialize (IH memo h Hpre Hall Hmemo).
    destruct (deepcopy_items items memo h) as [items' h']. cbn in *.
    destruct IH as [Hpre' Hrest]. split; [exact Hpre'|].
    constructor; [|exact Hrest]. cbn. split; [reflexivity|].
    apply (copied_prefix h0 h h'); [exact Hpre'|]. now apply Hmemo.
  - pose proof (prefix_length _ _ Hpre) as Hlen.
    assert (Hgrow : h `prefix_of` h ++ [read h l]) by apply prefix_app_r, reflexivity.
    assert (Hnew : copied h0 (h ++ [read h l]) l (length h)).
    { repeat split; [lia|rewrite length_app; cbn; lia|].
      rewrite read_alloc. now apply read_prefix. }
    specialize (IH ((l, length h) :: memo) (h ++ [read h l])).
    destruct IH as [Hpre' Hrest].
    + now transitivity h.
    + exact Hall.
    + intros l1 l1'. cbn. case_decide as Heq.
      * intros [= <-]. subst l1. auto.
      * intros Hin. destruct (Hmemo l1 l1' Hin) as [Hl1 Hcopy].
        split; [exact Hl1|]. now apply (copied_prefix h0 h).
    + destruct (deepcopy_items items _ (h ++ [read h l])) as [items' h'].
      cbn in *. split; [now transitivity (h ++ [read h l])|].
      constructor; [|exact Hrest]. cbn. split; [reflexivity|].
      now apply (copied_prefix h0 (h ++ [read h l])).
Qed.

(** A deep copy leaves the old heap in place, keeps the keys and their
    order, and puts every entry's words into storage allocated by the
    copy. *)
Lemma deepcopy_spec (d : ordered_dict) (h : heap) :
  Forall (fun e => e.2 < length h) d ->
  h `prefix_of` (deepcopy d h).2
  /\ Forall2 (fun e e' => e'.1 = e.1 /\ copied h (deepcopy d h).2 e.2 e'.2)
       d (deepcopy d h).1.
Proof.
  intros Hall. apply deepcopy_items_spec; [reflexivity|exact Hall|].
  intros l l'. cbn. discriminate.
Qed.

(** ** [load_state_dict] of a [torch.nn.Module] *)

(** Copying into [todo], when every entry of it lies below [base], has its
    source at or above [base], and the source holds [f] of the target with
    the target's shape: every target ends up holding [f] of itself, and
    nothing at or above [base] is written. *)
Lemma foldl_copy_spec (d : ordered_dict) (f : loc -> tensor) (base : nat)
    (todo : ordered_dict) :
  forall h : heap,
    (forall k p, (k, p) ∈ todo ->
       p < base /\ p < length h /\ length (read h p) = length (f p)
       /\ exists src, assoc k d = Some src /\ base <= src /\ read h src = f p) ->
    length (foldl (copy_ d) h todo) = length h
    /\ (forall l, base <= l -> read (foldl (copy_ d) h todo) l = read h l)
    /\ (forall l, read h l = f l -> read (foldl (copy_ d) h todo) l = f l)
    /\ (forall k p, (k, p) ∈ todo -> read (foldl (copy_ d) h todo) p = f p).
Proof.
  induction todo as [|[k p] todo IH]; intros h Hpre; cbn.
  { repeat split; auto. intros k p Hin. now apply elem_of_nil in Hin. }
  destruct (Hpre k p) as (Hp & Hlen & Hshape & src & Hsrc & Hbase & Hval).
  { apply elem_of_cons. now left. }
  assert (Hstep : copy_ d h (k, p) = <[p := f p]> h).
  { unfold copy_. cbn. rewrite Hsrc, Hval. now rewrite decide_True. }
  rewrite Hstep.
  destruct (IH (<[p := f p]> h)) as (IHlen & IHhigh & IHkeep & IHdone).
  { intros k' p' Hin.
    destruct (Hpre k' p') as (Hp' & Hlen' & Hshape' & src' & Hsrc' & Hbase' & Hval').
    { apply elem_of_cons. now right. }
    split_and!; [exact Hp'|now rewrite length_insert| |].
    - destruct (decide (p = p')) as [<-|Hne].
      + now rewrite read_insert_eq.
      + now rewrite read_insert_ne.
    - exists src'. split_and!; [exact Hsrc'|exact Hbase'|].
      rewrite read_insert_ne by lia. exact Hval'. }
  assert (Hhere : read (<[p := f p]> h) p = f p) by now apply read_insert_eq.
  split_and!.
  - now rewrite IHlen, length_insert.
  - intros l Hl. rewrite IHhigh by exact Hl. apply read_insert_ne. lia.
  - intros l Hl. apply IHkeep.
    destruct (decide (p = l)) as [<-|Hne]; [exact Hhere|].
    now rewrite read_insert_ne.
  - intros k' p' Hin. apply elem_of_cons in Hin as [[= -> ->]|Hin].
    + now apply IHkeep.
    + now apply (IHdone k').
Qed.

Lemma loadable_all (d : ordered_dict) (f : loc -> tensor) (h : heap)
    (own : ordered_dict) :
  (forall k p, (k, p) ∈ own ->
     length (read h p) = length (f p)
     /\ exists src, assoc k d = Some src /\ read h src = f p) ->
  forallb (loadable d h) own = true.
Proof.
  intros Hown. apply forallb_forall. intros [k p] Hin.
  apply list_elem_of_In in Hin.
  destruct (Hown k p Hin) as (Hshape & src & Hsrc & Hval).
  unfold loadable. cbn. rewrite Hsrc, Hval.
  apply bool_decide_eq_true. now symmetry.
Qed.

Lemma expected_all (ks ks' : list string) :
  ks = ks' -> forallb (fun k => bool_decide (k ∈ ks')) ks = true.
Proof.
  intros ->. apply forallb_forall. intros k Hin.
  apply bool_decide_eq_true. now apply list_elem_of_In.
Qed.

(** ** Capture and restore *)

Section RoundTrip.
Import SaveBestState.
Context {DataLoader : Type}.

Lemma entry_copied (d d' : ordered_dict) (h h' : heap) (k : string) :
  Forall2 (fun e e' => e'.1 = e.1 /\ copied h h' e.2 e'.2) d d' ->
  entry d' h' k = entry d h k.
Proof.
  intros Hcopy. unfold entry.
  destruct (assoc_Forall2 (copied h h') k d d' Hcopy) as [l l' [_ Hread]|];
    cbn; congruence.
Qed.

Lemma copied_fresh (d d' : ordered_dict) (h h' : heap) (k : string) (s : loc) :
  Forall2 (fun e e' => e'.1 = e.1 /\ copied h h' e.2 e'.2) d d' ->
  (k, s) ∈ d' -> length h <= s.
Proof.
  intros Hcopy Hin. apply list_elem_of_lookup in Hin as [i Hi].
  destruct (Forall2_lookup_r _ _ _ _ _ Hcopy Hi) as ([k' p] & _ & _ & [Hlo _] & _).
  exact Hlo.
Qed.

(** C3.  An improving call stores a deep copy of the module's whole state
    dictionary, whatever was stored before: same keys, same words, in storage
    allocated by the call, so that no later write to a tensor that existed
    before can reach it.  After any training that does not write to the
    snapshot, [on_train_end] succeeds and every tensor of the module holds the
    captured words again, the snapshot itself being left as it was. *)
Theorem capture_restore_round_trip (self : t) (trainer : Trainer DataLoader)
    (m : nn_Module) (h0 : heap) (current : metric) :
  well_formed m h0 ->
  (period self <= epochs_since_last_check self + 1)%Z ->
  callback_metrics trainer !! monitor self = Some current ->
  check_monitor_top self (item current) = true ->
  let pl_module := {| model := m |} in
  let '(self1, h1, _) := on_epoch_end self trainer pl_module h0 in
  exists snap,
    best_model_state self1 = Some snap
    /\ keys snap = keys (named_tensors m)
    /\ (forall k, entry snap h1 k = entry (named_tensors m) h0 k)
    /\ h0 `prefix_of` h1
    /\ (forall k s, (k, s) ∈ snap ->
          length h0 <= s /\ forall k' p, (k', p) ∈ named_tensors m -> s <> p)
    /\ forall h2, trained m snap h1 h2 ->
         exists h3,
           on_train_end self1 trainer pl_module h2 = (Ok (), h3)
           /\ (forall k, entry (named_tensors m) h3 k = entry snap h1 k)
           /\ (forall k, entry snap h3 k = entry snap h1 k)
           /\ (forall k s p, (k, s) ∈ snap -> (k, p) ∈ named_tensors m -> s <> p).
Proof.
  intros [Hnodup Halloc] Hle Hlog Hcmp pl_module.
  rewrite (on_epoch_end_improved self trainer pl_module h0 current)
    by assumption.
  cbn [model pl_module state_dict nn_Module_model].
  destruct (deepcopy_spec (named_tensors m) h0 Halloc) as [Hpre Hcopy].
  set (snap := (deepcopy (named_tensors m) h0).1) in *.
  set (h1 := (deepcopy (named_tensors m) h0).2) in *.
  assert (Hfresh : forall k s, (k, s) ∈ snap ->
            length h0 <= s /\ forall k' p, (k', p) ∈ named_tensors m -> s <> p).
  { intros k s Hin.
    pose proof (copied_fresh _ _ _ _ _ _ Hcopy Hin) as Hs.
    split; [exact Hs|]. intros k' p Hp.
    rewrite Forall_forall in Halloc. specialize (Halloc (k', p) Hp).
    cbn in Halloc. lia. }
  assert (Hkeys : keys snap = keys (named_tensors m)).
  { unfold keys. exact (Forall2_same_keys _ _ _ Hcopy). }
  exists snap. cbn [best_model_state set_best].
  split; [reflexivity|]. split; [exact Hkeys|].
  split; [intros k; exact (entry_copied _ _ _ _ k Hcopy)|].
  split; [exact Hpre|]. split; [exact Hfresh|].
  intros h2 (Hlen2 & Hsnap2 & Hshape2).
  pose proof (prefix_length _ _ Hpre) as Hlen1.
  assert (Hready : forall k p, (k, p) ∈ named_tensors m ->
            p < length h0 /\ p < length h2
            /\ length (read h2 p) = length (read h0 p)
            /\ exists src, assoc k snap = Some src /\ length h0 <= src
                 /\ read h2 src = read h0 p).
  { intros k p Hin.
    assert (Hp : p < length h0).
    { rewrite Forall_forall in Halloc. exact (Halloc (k, p) Hin). }
    pose proof (assoc_NoDup k p _ Hnodup Hin) as Hk.
    pose proof (assoc_Forall2 (copied h0 h1) k _ _ Hcopy) as Hrel.
    rewrite Hk in Hrel. inversion Hrel as [? src [[Hlo Hhi] Hread] Heq1 Heq2|].
    symmetry in Heq2. apply assoc_elem_of in Heq2 as Hsrc.
    split_and!; [exact Hp|lia| |].
    - rewrite (Hshape2 k p Hin). now rewrite (read_prefix h0 h1).
    - exists src. split_and!; [congruence|exact Hlo|].
      now rewrite (Hsnap2 k src Hsrc). }
  destruct (foldl_copy_spec snap (read h0) (length h0) (named_tensors m) h2 Hready)
    as (_ & Hhigh & _ & Hdone).
  exists (foldl (copy_ snap) h2 (named_tensors m)).
  split; [|split; [|split]].
  - unfold on_train_end. cbn. unfold nn_load_state_dict.
    rewrite (loadable_all snap (read h0) h2), (expected_all _ _ Hkeys);
      [reflexivity|].
    intros k p Hin.
    destruct (Hready k p Hin) as (_ & _ & Hshape & src & Hsrc & _ & Hval).
    eauto.
  - intros k. rewrite (entry_copied _ _ _ _ k Hcopy). unfold entry.
    destruct (assoc k (named_tensors m)) as [p|] eqn:Hk; [|reflexivity].
    cbn. f_equal. apply (Hdone k). now apply assoc_elem_of.
  - intros k. unfold entry.
    destruct (assoc k snap) as [s|] eqn:Hk; [|reflexivity].
    cbn. f_equal. apply assoc_elem_of in Hk as Hin.
    destruct (Hfresh k s Hin) as [Hs _].
    rewrite Hhigh by exact Hs. exact (Hsnap2 k s Hin).
  - intros k s p Hs Hp. destruct (Hfresh k s Hs) as [_ Hne]. exact (Hne k p Hp).
Qed.

End RoundTrip.

(** ** The label resampling hook in the training loop *)

Section LoopFacts.
Import TrainingLoop.
Context {DataLoader Batch M : Type} `{LabelledLoader DataLoader}
  `{StatefulModel M}.
Variable next_batches : DataLoader -> list Batch * DataLoader.
Variable optimizer_step : Batch -> Q -> heap -> heap.
Variable validate : heap -> gmap string metric.
Variable n_epochs_kl_warmup : option Z.

(** The loop with [SubSampleLabels] as its callback. *)
Abbreviation hooked_epoch :=
  (run_epoch SubSampleLabels.on_epoch_start next_batches optimizer_step
     validate n_epochs_kl_warmup).
Abbreviation hooked_fit :=
  (fit SubSampleLabels.on_epoch_start next_batches optimizer_step validate
     n_epochs_kl_warmup).
(** The same loop on a recorder. *)
Abbreviation spied_epoch :=
  (run_epoch SubSampleLabels.on_epoch_start (recorded next_batches)
     optimizer_step validate n_epochs_kl_warmup).
Abbreviation spied_fit :=
  (fit SubSampleLabels.on_epoch_start (recorded next_batches) optimizer_step
     validate n_epochs_kl_warmup).
(** The loop with the callback base class, whose hooks do nothing, on a
    loader that resamples by itself ahead of every pass. *)
Abbreviation plain_fit :=
  (fit Callback.on_epoch_start
     (fun loader => next_batches (resample_labels loader)) optimizer_step
     validate n_epochs_kl_warmup).








End LoopFacts.

(** ** The constructor of [SpatialStereoscope] *)

Section StereoscopeFacts.
Import SpatialStereoscope.
Context {Rest Base Params Kwargs Deconv InitParams : Type}.
Variable register_tensor_from_anndata :
  AnnData Rest -> string -> string -> string -> AnnData Rest * option exn.
Variable BaseModelClass_init :
  AnnData Rest -> bool -> AnnData Rest * result Base.
Variable SpatialDeconv : nat -> Params -> string -> Kwargs -> result Deconv.
Variable _get_init_params :
  AnnData Rest -> Params -> bool -> string -> Kwargs -> InitParams.

Abbreviation __init__ :=
  (__init__ register_tensor_from_anndata BaseModelClass_init SpatialDeconv
     _get_init_params).

Lemma arange_length (n : nat) : length (arange n) = n.
Proof. unfold arange. now rewrite length_fmap, length_seq. Qed.

Lemma arange_lookup (n i : nat) : i < n -> arange n !! i = Some (Z.of_nat i).
Proof.
  intros Hi. unfold arange. rewrite list_lookup_fmap.
  now rewrite lookup_seq_lt.
Qed.

Lemma set_obs_lookup (column : string) (values : list Z) (adata : AnnData Rest) :
  obs (set_obs column values adata) !! column = Some values
  /\ n_obs (set_obs column values adata) = n_obs adata
  /\ forall other, other <> column ->
       obs (set_obs column values adata) !! other = obs adata !! other.
Proof.
  cbn. split_and!; [apply lookup_insert_eq|reflexivity|].
  intros other Hne. now apply lookup_insert_ne.
Qed.

(** C10.  Whatever AnnData is passed, and whether or not the construction
    then succeeds, the caller's object comes back with the column
    ["_indices"] holding 0, ..., n_obs - 1 (its other columns as before; a
    changed object if it had no such column), and it is this object that was handed to
    [register_tensor_from_anndata] under the key ["ind_x"] for the attribute
    ["obs"] and that column, before anything else was done with it. *)
Theorem init_mutates_st_adata (st_adata : AnnData Rest) (params : Params)
    (use_gpu : bool) (prior_weight : string) (model_kwargs : Kwargs) :
  (forall a k attr key, keeps_obs a (register_tensor_from_anndata a k attr key).1) ->
  (forall a gpu, keeps_obs a (BaseModelClass_init a gpu).1) ->
  let indexed := set_obs "_indices" (arange (n_obs st_adata)) st_adata in
  let registered :=
    register_tensor_from_anndata indexed "ind_x" "obs" "_indices" in
  let '(after, outcome) :=
    __init__ st_adata params use_gpu prior_weight model_kwargs in
  (exists column,
      obs after !! "_indices" = Some column
      /\ length column = n_obs st_adata
      /\ forall i, i < n_obs st_adata -> column !! i = Some (Z.of_nat i))
  /\ n_obs after = n_obs st_adata
  /\ (forall other, other <> "_indices" ->
        obs after !! other = obs st_adata !! other)
  /\ (obs st_adata !! "_indices" = None -> after <> st_adata)
  /\ match registered.2 with
     | Some e => after = registered.1 /\ outcome = Raise e
     | None => after = (BaseModelClass_init registered.1 use_gpu).1
     end.
Proof.
  intros Hregister Hbase indexed registered.
  destruct (set_obs_lookup "_indices" (arange (n_obs st_adata)) st_adata)
    as (Hcolumn & Hn & Hothers).
  fold indexed in Hcolumn, Hn, Hothers.
  pose proof (Hregister indexed "ind_x" "obs" "_indices") as [Hn1 Hobs1].
  fold registered in Hn1, Hobs1.
  pose proof (Hbase registered.1 use_gpu) as [Hn2 Hobs2].
  assert (Hfinal : forall after : AnnData Rest,
            n_obs after = n_obs indexed -> obs after = obs indexed ->
            (exists column,
                obs after !! "_indices" = Some column
                /\ length column = n_obs st_adata
                /\ forall i, i < n_obs st_adata -> column !! i = Some (Z.of_nat i))
            /\ n_obs after = n_obs st_adata
            /\ (forall other, other <> "_indices" ->
                  obs after !! other = obs st_adata !! other)
            /\ (obs st_adata !! "_indices" = None -> after <> st_adata)).
  { intros after Hna Hoa. split_and!.
    - exists (arange (n_obs st_adata)). rewrite Hoa.
      split_and!; [exact Hcolumn|apply arange_length|apply arange_lookup].
    - congruence.
    - intros other Hne. rewrite Hoa. now apply Hothers.
    - intros Hnone Heq. rewrite Heq in Hoa.
      rewrite Hoa, Hcolumn in Hnone. discriminate. }
  unfold SpatialStereoscope.__init__. fold indexed. fold registered.
  destruct registered as [a1 [e|]]; cbn in *.
  { destruct (Hfinal a1 Hn1 Hobs1) as (? & ? & ? & ?). split_and!; auto. }
  destruct (BaseModelClass_init a1 use_gpu) as [a2 [b|e]]; cbn in *.
  - destruct (Hfinal a2) as (? & ? & ? & ?); [congruence..|].
    destruct (SpatialDeconv _ _ _ _); split_and!; auto.
  - destruct (Hfinal a2) as (? & ? & ? & ?); [congruence..|].
    split_and!; auto.
Qed.

End StereoscopeFacts.

(** * Part III: the properties at the sample objects *)

Section Witnesses.
Import SaveBestState.

(** The constructor builds the sample tracker. *)
Lemma sample_tracker_constructed (period : Z) :
  __init__ "elbo_validation" "min" false period = Ok (Sample.tracker period).
Proof. reflexivity. Qed.

Lemma sample_tracker_mode_agrees (period : Z) :
  mode_agrees (Sample.tracker period).
Proof. left. split; reflexivity. Qed.

(** A first logged value is better than +infinity: the counter is reset,
    the value becomes the best one and the two tensors are copied to the new
    locations 2 and 3. *)
Lemma on_epoch_end_step_witness :
  let '(self', h', _) :=
    on_epoch_end (Sample.tracker 1) (Sample.trainer Sample.elbo_logged)
      Sample.pl_module Sample.net_heap in
  epochs_since_last_check self' = 0%Z
  /\ best_model_metric_val self' = Sample.one
  /\ (best_model_state self', h')
     = (Some [("weight", 2); ("bias", 3)],
        [[10; 20]; [30]; [10; 20]; [30]]%Z).
Proof.
  exact (on_epoch_end_step (Sample.tracker 1)
           (Sample.trainer Sample.elbo_logged) Sample.pl_module
           Sample.net_heap (sample_tracker_mode_agrees 1)).
Defined.

(** With a period of three epochs, the first call only counts. *)
Lemma on_epoch_end_frame_witness :
  let '(self', h', _) :=
    on_epoch_end (Sample.tracker 3) (Sample.trainer Sample.elbo_logged)
      Sample.pl_module Sample.net_heap in
  self' = set_epochs_since_last_check (epochs_since_last_check self')
            (Sample.tracker 3)
  /\ best_model_state self' = None
  /\ best_model_metric_val self' = np_Inf
  /\ h' = Sample.net_heap.
Proof.
  apply (on_epoch_end_frame (Sample.tracker 3)
           (Sample.trainer Sample.elbo_logged) Sample.pl_module
           Sample.net_heap).
  left. cbn. lia.
Defined.

(** C4, as stated, fails: with a period of two epochs the first call finds
    the monitored metric absent and emits no warning. *)
Lemma absent_metric_unwarned :
  callback_metrics (Sample.trainer ∅) !! monitor (Sample.tracker 2) = None
  /\ ~ exists category message,
         Warn category message
         ∈ (on_epoch_end (Sample.tracker 2) (Sample.trainer ∅)
              Sample.pl_module Sample.net_heap).2.
Proof.
  split; [reflexivity|]. intros (category & message & Hin).
  cbn in Hin. now apply elem_of_nil in Hin.
Qed.

(** With a period of one epoch the absent metric is reported at once. *)
Lemma on_epoch_end_metric_absent_witness :
  let '(self', h', out) :=
    on_epoch_end (Sample.tracker 1) (Sample.trainer ∅) Sample.pl_module
      Sample.net_heap in
  best_model_metric_val self' = np_Inf
  /\ best_model_state self' = None
  /\ h' = Sample.net_heap
  /\ out = [skipping "elbo_validation"].
Proof.
  exact (on_epoch_end_metric_absent (Sample.tracker 1) (Sample.trainer ∅)
           Sample.pl_module Sample.net_heap eq_refl).
Defined.

(** A newly built tracker ends the training of a torch module with the
    attribute error of [load_state_dict(None)]. *)
Lemma on_train_end_without_snapshot_witness :
  on_train_end (Sample.tracker 1) (Sample.trainer ∅) Sample.pl_module
    Sample.net_heap
  = (Raise (AttributeError "NoneType object has no attribute copy"),
     Sample.net_heap).
Proof.
  exact (on_train_end_without_snapshot "elbo_validation" "min" false 1
           (Sample.tracker 1) (Sample.trainer ∅) Sample.pl_module
           Sample.net_heap (sample_tracker_constructed 1)).
Defined.

(** Nothing in the hook itself raises: with a model that accepts the absent
    state, the training ends normally and nothing is restored. *)
Example on_train_end_silent (h : heap) :
  on_train_end (Sample.tracker 1) (Sample.trainer ∅)
    {| model := Sample.Stateless |} h
  = (Ok (), h).
Proof. reflexivity. Qed.

Lemma sample_net_well_formed : well_formed Sample.net Sample.net_heap.
Proof.
  split.
  - cbn. apply NoDup_cons. split.
    + intros Hin. apply list_elem_of_singleton in Hin. discriminate.
    + apply NoDup_singleton.
  - repeat constructor.
Qed.

(** The sample module, captured at the first epoch and restored. *)
Lemma capture_restore_round_trip_witness :
  let pl_module := {| model := Sample.net |} in
  let '(self1, h1, _) :=
    on_epoch_end (Sample.tracker 1) (Sample.trainer Sample.elbo_logged)
      pl_module Sample.net_heap in
  exists snap,
    best_model_state self1 = Some snap
    /\ keys snap = ["weight"; "bias"]
    /\ (forall k, entry snap h1 k = entry (named_tensors Sample.net) Sample.net_heap k)
    /\ Sample.net_heap `prefix_of` h1
    /\ (forall k s, (k, s) ∈ snap ->
          2 <= s /\ forall k' p, (k', p) ∈ named_tensors Sample.net -> s <> p)
    /\ forall h2, trained Sample.net snap h1 h2 ->
         exists h3,
           on_train_end self1 (Sample.trainer Sample.elbo_logged) pl_module h2
           = (Ok (), h3)
           /\ (forall k, entry (named_tensors Sample.net) h3 k = entry snap h1 k)
           /\ (forall k, entry snap h3 k = entry snap h1 k)
           /\ (forall k s p,
                 (k, s) ∈ snap -> (k, p) ∈ named_tensors Sample.net -> s <> p).
Proof.
  apply (capture_restore_round_trip (Sample.tracker 1)
           (Sample.trainer Sample.elbo_logged) Sample.net Sample.net_heap
           (FloatMetric Sample.one) sample_net_well_formed).
  - cbn. lia.
  - reflexivity.
  - reflexivity.
Defined.

(** Training that overwrites both tensors of the sample module after the
    capture: the restore brings the captured words back. *)
Example sample_restore_after_training :
  let '(self1, h1, _) :=
    on_epoch_end (Sample.tracker 1) (Sample.trainer Sample.elbo_logged)
      Sample.pl_module Sample.net_heap in
  let h2 := <[0 := [11; 22]%Z]> (<[1 := [33]%Z]> h1) in
  on_train_end self1 (Sample.trainer ∅) Sample.pl_module h2
  = (Ok (), [[10; 20]; [30]; [10; 20]; [30]]%Z).
Proof. reflexivity. Qed.

End Witnesses.

Section LoopWitness.
Import TrainingLoop Sample.


(** What the sample loader was asked: each epoch's batches were drawn after
    that epoch's resampling, the first after one, the second after two. *)
Example sample_loop_calls :
  calls
    (train_dataloader
       (TrainingLoop.trainer
          (fit SubSampleLabels.on_epoch_start (recorded two_batches)
             no_update no_logs None 2 (spied session))))
  = [ResampleLabels; Yielded 1; Yielded 11; Exhausted;
     ResampleLabels; Yielded 2; Yielded 12; Exhausted].
Proof. reflexivity. Qed.

(** With the callback base class in place of [SubSampleLabels] the loader is
    never resampled. *)
Example sample_loop_calls_without_hook :
  calls
    (train_dataloader
       (TrainingLoop.trainer
          (fit Callback.on_epoch_start (recorded two_batches) no_update
             no_logs None 2 (spied session))))
  = [Yielded 0; Yielded 10; Exhausted; Yielded 0; Yielded 10; Exhausted].
Proof. reflexivity. Qed.

End LoopWitness.

Section StereoscopeWitness.
Import SpatialStereoscope.

(** The sample AnnData comes back with the column and with ["ind_x"]
    registered for it. *)
Lemma init_mutates_st_adata_witness :
  let indexed := set_obs "_indices" (arange 3) Sample.adata in
  let registered := Sample.register indexed "ind_x" "obs" "_indices" in
  let '(after, outcome) :=
    __init__ Sample.register Sample.base_init Sample.deconv Sample.init_params
      Sample.adata () true "n_obs" () in
  (exists column,
      obs after !! "_indices" = Some column
      /\ length column = 3
      /\ forall i, i < 3 -> column !! i = Some (Z.of_nat i))
  /\ n_obs after = 3
  /\ (forall other, other <> "_indices" ->
        obs after !! other = obs Sample.adata !! other)
  /\ (obs Sample.adata !! "_indices" = None -> after <> Sample.adata)
  /\ match registered.2 with
     | Some e => after = registered.1 /\ outcome = Raise e
     | None => after = (Sample.base_init registered.1 true).1
     end.
Proof.
  apply (init_mutates_st_adata Sample.register Sample.base_init Sample.deconv
           Sample.init_params Sample.adata () true "n_obs" ()).
  - intros a k attr key. split; reflexivity.
  - intros a gpu. split; reflexivity.
Defined.

Example sample_adata_after :
  (__init__ Sample.register Sample.base_init Sample.deconv Sample.init_params
     Sample.adata () true "n_obs" ()).1
  = {| n_obs := 3;
       obs := {[ "_indices" := [0; 1; 2]%Z ]};
       rest := {[ "ind_x" := ("obs", "_indices") ]} |}.
Proof. reflexivity. Qed.

End StereoscopeWitness.

(** * Part IV: further properties *)

(** ** The comparisons of the monitor *)

Lemma SFcompare_refl (x : spec_float) :
  SFcompare x x = Some Eq \/ SFcompare x x = None.
Proof.
  destruct x as [s|s| |s m e]; cbn; auto.
  - destruct s; auto.
  - left. rewrite Z.compare_refl.
    change (Pos.compare_cont Eq m m) with (m ?= m)%positive.
    rewrite Pos.compare_refl. now destruct s.
Qed.

Lemma SFltb_irrefl (x : spec_float) : SFltb x x = false.
Proof.
  unfold SFltb. now destruct (SFcompare_refl x) as [-> | ->].
Qed.

Lemma SFltb_nan_l (x : spec_float) : SFltb S754_nan x = false.
Proof. reflexivity. Qed.

Lemma SFltb_nan_r (x : spec_float) : SFltb x S754_nan = false.
Proof. now destruct x. Qed.

Lemma SFltb_finite_trans (s : bool) (m1 m2 m3 : positive) (e1 e2 e3 : Z) :
  SFltb (S754_finite s m1 e1) (S754_finite s m2 e2) = true ->
  SFltb (S754_finite s m2 e2) (S754_finite s m3 e3) = true ->
  SFltb (S754_finite s m1 e1) (S754_finite s m3 e3) = true.
Proof.
  unfold SFltb, SFcompare.
  change (Pos.compare_cont Eq m1 m2) with (m1 ?= m2)%positive.
  change (Pos.compare_cont Eq m2 m3) with (m2 ?= m3)%positive.
  change (Pos.compare_cont Eq m1 m3) with (m1 ?= m3)%positive.
  destruct s;
    destruct (Z.compare_spec e1 e2), (Z.compare_spec e2 e3),
      (Z.compare_spec e1 e3);
    try discriminate; try reflexivity; try lia;
    destruct (Pos.compare_spec m1 m2), (Pos.compare_spec m2 m3),
      (Pos.compare_spec m1 m3);
    cbn; try discriminate; try reflexivity; lia.
Qed.

Lemma SFltb_trans (x y z : spec_float) :
  SFltb x y = true -> SFltb y z = true -> SFltb x z = true.
Proof.
  destruct x as [sx|sx| |sx mx ex], y as [sy|sy| |sy my ey],
    z as [sz|sz| |sz mz ez];
    try (destruct sx); try (destruct sy); try (destruct sz);
    try (cbn; (discriminate || reflexivity));
    try (intros _ _; reflexivity);
    try (intros H; discriminate H);
    try (intros _ H; discriminate H);
    apply SFltb_finite_trans.
Qed.

Lemma call_irrefl (op : ufunc) (x : spec_float) : call op x x = false.
Proof. destruct op; apply SFltb_irrefl. Qed.

Lemma call_trans (op : ufunc) (x y z : spec_float) :
  call op x y = true -> call op y z = true -> call op x z = true.
Proof.
  destruct op; cbn; intros Hxy Hyz;
    [exact (SFltb_trans _ _ _ Hxy Hyz)|exact (SFltb_trans _ _ _ Hyz Hxy)].
Qed.

Lemma call_nan (op : ufunc) (x y : spec_float) :
  call op x y = true -> x <> S754_nan /\ y <> S754_nan.
Proof.
  destruct op; cbn; intros Hlt; split; intros ->;
    rewrite ?SFltb_nan_l, ?SFltb_nan_r in Hlt; discriminate.
Qed.

(** ** [SaveBestState] over the epochs of a run *)

Section MonitoringFacts.
Import SaveBestState Monitoring.
Context {DataLoader M : Type} `{StatefulModel M}.
Implicit Types (self : t) (trainer : Trainer DataLoader)
  (pl_module : LightningModule M) (h : heap)
  (epochs : list ((heap -> heap) * Trainer DataLoader)).

(** What one call does, in its four cases. *)
Lemma on_epoch_end_cases self trainer pl_module h :
  let counter := (epochs_since_last_check self + 1)%Z in
  ((counter < period self)%Z
   /\ on_epoch_end self trainer pl_module h
      = (set_epochs_since_last_check counter self, h, []))
  \/ ((period self <= counter)%Z
      /\ callback_metrics trainer !! monitor self = None
      /\ on_epoch_end self trainer pl_module h
         = (set_epochs_since_last_check 0 self, h, [skipping (monitor self)]))
  \/ (exists current,
        (period self <= counter)%Z
        /\ callback_metrics trainer !! monitor self = Some current
        /\ check_monitor_top self (item current) = false
        /\ on_epoch_end self trainer pl_module h
           = (set_epochs_since_last_check 0 self, h, []))
  \/ (exists current,
        (period self <= counter)%Z
        /\ callback_metrics trainer !! monitor self = Some current
        /\ check_monitor_top self (item current) = true
        /\ on_epoch_end self trainer pl_module h
           = (set_best (deepcopy (state_dict (model pl_module)) h).1
                (item current) (set_epochs_since_last_check 0 self),
              (deepcopy (state_dict (model pl_module)) h).2,
              if verbose self
              then [RankZeroInfo (current_epoch trainer) (monitor self)]
              else [])).
Proof.
  intros counter. subst counter.
  destruct (Z.lt_ge_cases (epochs_since_last_check self + 1) (period self))
    as [Hlt|Hle].
  { left. split; [exact Hlt|]. now apply on_epoch_end_waiting. }
  right. destruct (callback_metrics trainer !! monitor self) as [current|] eqn:Hlog.
  - right. destruct (check_monitor_top self (item current)) eqn:Hcmp.
    + right. exists current. split_and!; try done.
      now apply on_epoch_end_improved.
    + left. exists current. split_and!; try done.
      now apply (on_epoch_end_worse _ _ _ _ current).
  - left. split_and!; try done. now apply on_epoch_end_absent.
Qed.

(** No call changes the configuration of the tracker. *)
Lemma on_epoch_end_configuration self trainer pl_module h :
  let self' := (on_epoch_end self trainer pl_module h).1.1 in
  monitor self' = monitor self /\ verbose self' = verbose self
  /\ period self' = period self /\ monitor_op self' = monitor_op self
  /\ mode self' = mode self.
Proof.
  destruct (on_epoch_end_cases self trainer pl_module h)
    as [[_ ->]|[(_ & _ & ->)|[(? & _ & _ & _ & ->)|(? & _ & _ & _ & ->)]]];
    cbn; auto.
Qed.

Lemma on_epoch_end_counter self trainer pl_module h :
  epochs_since_last_check (on_epoch_end self trainer pl_module h).1.1
  = if decide (epochs_since_last_check self + 1 < period self)%Z
    then (epochs_since_last_check self + 1)%Z
    else 0%Z.
Proof.
  destruct (on_epoch_end_cases self trainer pl_module h)
    as [[? ->]|[(? & _ & ->)|[(? & ? & _ & _ & ->)|(? & ? & _ & _ & ->)]]];
    cbn; case_decide; lia.
Qed.

(** The best value after a call: the one before, or the logged value, which
    then is better than the one before; the snapshot changes only in the
    second case. *)
Lemma on_epoch_end_best self trainer pl_module h :
  let self' := (on_epoch_end self trainer pl_module h).1.1 in
  (best_model_metric_val self' = best_model_metric_val self
   /\ best_model_state self' = best_model_state self
   /\ (on_epoch_end self trainer pl_module h).1.2 = h)
  \/ (exists current,
        callback_metrics trainer !! monitor self = Some current
        /\ best_model_metric_val self' = item current
        /\ call (monitor_op self) (item current) (best_model_metric_val self)
           = true
        /\ is_Some (best_model_state self')).
Proof.
  destruct (on_epoch_end_cases self trainer pl_module h)
    as [[_ ->]|[(_ & _ & ->)|[(? & _ & _ & _ & ->)|(v & _ & Hlog & Hcmp & ->)]]];
    cbn; auto.
  right. exists v. split_and!; auto.
Qed.

Lemma on_epochs_end_cons self train trainer epochs pl_module h :
  on_epochs_end self ((train, trainer) :: epochs) pl_module h
  = let first := on_epoch_end self trainer pl_module (train h) in
    let others := on_epochs_end first.1.1 epochs pl_module first.1.2 in
    (others.1.1, others.1.2, first.2 ++ others.2).
Proof.
  cbn. destruct (on_epoch_end _ _ _ _) as [[self1 h1] out1]. cbn.
  now destruct (on_epochs_end self1 epochs pl_module h1) as [[self2 h2] out2].
Qed.

Lemma on_epochs_end_configuration epochs :
  forall self pl_module h,
    let self' := (on_epochs_end self epochs pl_module h).1.1 in
    monitor self' = monitor self /\ period self' = period self
    /\ monitor_op self' = monitor_op self /\ mode self' = mode self.
Proof.
  induction epochs as [|[train trainer] epochs IH]; intros self pl_module h.
  { cbn. auto. }
  rewrite on_epochs_end_cons. cbn.
  destruct (on_epoch_end_configuration self trainer pl_module (train h))
    as (Hm & _ & Hp & Hop & Hmode).
  destruct (IH (on_epoch_end self trainer pl_module (train h)).1.1 pl_module
              (on_epoch_end self trainer pl_module (train h)).1.2)
    as (Hm' & Hp' & Hop' & Hmode').
  split_and!; congruence.
Qed.

Lemma logged_cons self train trainer epochs :
  logged self ((train, trainer) :: epochs)
  = match callback_metrics trainer !! monitor self with
    | Some current => item current :: logged self epochs
    | None => logged self epochs
    end.
Proof. unfold logged. cbn. now destruct (_ !! _). Qed.

Lemma logged_monitor self self' epochs :
  monitor self' = monitor self -> logged self' epochs = logged self epochs.
Proof. unfold logged. now intros ->. Qed.

(** A value that does not beat [b] does not beat anything at least as good
    as [b]. *)
Lemma not_better_kept (op : ufunc) (v b b' : spec_float) :
  call op v b = false ->
  b' = b \/ call op b' b = true ->
  call op v b' = false.
Proof.
  intros Hv [->|Hb]; [exact Hv|].
  destruct (call op v b') eqn:Hvb'; [|reflexivity].
  now rewrite (call_trans op v b' b Hvb' Hb) in Hv.
Qed.

(** Over a run the best value and the snapshot stay as they were, or the
    best value becomes a logged value better than the one at the start, with
    a snapshot stored. *)
Lemma on_epochs_end_best epochs :
  forall self pl_module h,
    let self' := (on_epochs_end self epochs pl_module h).1.1 in
    (best_model_metric_val self' = best_model_metric_val self
     /\ best_model_state self' = best_model_state self)
    \/ (call (monitor_op self) (best_model_metric_val self')
          (best_model_metric_val self) = true
        /\ best_model_metric_val self' ∈ logged self epochs
        /\ is_Some (best_model_state self')).
Proof.
  induction epochs as [|[train trainer] epochs IH]; intros self pl_module h.
  { cbn. auto. }
  rewrite on_epochs_end_cons, logged_cons. cbn.
  destruct (on_epoch_end_configuration self trainer pl_module (train h))
    as (Hm & _ & _ & Hop & _).
  specialize (IH (on_epoch_end self trainer pl_module (train h)).1.1 pl_module
                (on_epoch_end self trainer pl_module (train h)).1.2).
  cbn in IH. rewrite Hop, (logged_monitor _ _ _ Hm) in IH.
  destruct (on_epoch_end_best self trainer pl_module (train h))
    as [(Hbest & Hstate & _)|(current & Hlog & Hbest & Hbetter & Hsome)];
    cbn in *.
  - rewrite Hbest, Hstate in IH.
    destruct IH as [IH|(Hb & Hin & Hs)]; [now left|right].
    split_and!; [exact Hb| |exact Hs].
    destruct (_ !! _); [apply elem_of_cons; now right|exact Hin].
  - rewrite Hlog. rewrite Hbest in IH. right.
    destruct IH as [[Hsame Hstate]|(Hb & Hin & Hs)].
    + rewrite Hsame, Hstate. split_and!; [exact Hbetter| |exact Hsome].
      apply elem_of_cons. now left.
    + split_and!; [exact (call_trans _ _ _ _ Hb Hbetter)| |exact Hs].
      apply elem_of_cons. now right.
Qed.

(** When the check interval is at most one epoch, no logged value of a run
    beats the best value at its end. *)
Lemma on_epochs_end_optimal epochs :
  forall self pl_module h,
    (period self <= 1)%Z -> (0 <= epochs_since_last_check self)%Z ->
    forall v, v ∈ logged self epochs ->
      call (monitor_op self) v
        (best_model_metric_val (on_epochs_end self epochs pl_module h).1.1)
      = false.
Proof.
  induction epochs as [|[train trainer] epochs IH];
    intros self pl_module h Hperiod Hcounter v Hv.
  { now apply elem_of_nil in Hv. }
  rewrite logged_cons in Hv. rewrite on_epochs_end_cons. cbn.
  pose proof (on_epochs_end_best epochs
                (on_epoch_end self trainer pl_module (train h)).1.1 pl_module
                (on_epoch_end self trainer pl_module (train h)).1.2) as Hrest.
  specialize (IH (on_epoch_end self trainer pl_module (train h)).1.1 pl_module
                (on_epoch_end self trainer pl_module (train h)).1.2).
  cbn in Hrest.
  assert (Hlater : forall b,
            best_model_metric_val
              (on_epoch_end self trainer pl_module (train h)).1.1 = b ->
            monitor_op (on_epoch_end self trainer pl_module (train h)).1.1
              = monitor_op self ->
            call (monitor_op self) v b = false ->
            call (monitor_op self) v
              (best_model_metric_val
                 (on_epochs_end
                    (on_epoch_end self trainer pl_module (train h)).1.1 epochs
                    pl_module
                    (on_epoch_end self trainer pl_module (train h)).1.2).1.1)
            = false).
  { intros b Hb Hop Hvb. rewrite Hb, Hop in Hrest.
    apply (not_better_kept _ v b); [exact Hvb|].
    destruct Hrest as [[-> _]|(Hbetter & _ & _)]; auto. }
  destruct (on_epoch_end_cases self trainer pl_module (train h))
    as [[Hlt _]|[(_ & Hlog & Heq)|[(current & _ & Hlog & Hcmp & Heq)
                                  |(current & _ & Hlog & Hcmp & Heq)]]];
    [lia|..]; rewrite Hlog in Hv; rewrite Heq in IH, Hlater |- *; cbn in *.
  - now apply IH.
  - apply elem_of_cons in Hv as [->|Hv]; [|now apply IH].
    now apply (Hlater _ eq_refl eq_refl).
  - apply elem_of_cons in Hv as [->|Hv]; [|now apply IH].
    apply (Hlater _ eq_refl eq_refl). apply call_irrefl.
Qed.

(** The counter of a run counts the epochs modulo the check interval. *)
Lemma on_epochs_end_counter epochs :
  forall self pl_module h,
    (0 <= epochs_since_last_check self < period self)%Z ->
    epochs_since_last_check (on_epochs_end self epochs pl_module h).1.1
    = ((epochs_since_last_check self + Z.of_nat (length epochs))
         mod period self)%Z.
Proof.
  induction epochs as [|[train trainer] epochs IH];
    intros self pl_module h Hrange.
  { cbn. rewrite Z.add_0_r. symmetry. now apply Z.mod_small. }
  rewrite on_epochs_end_cons. cbn [fst snd length].
  destruct (on_epoch_end_configuration self trainer pl_module (train h))
    as (_ & _ & Hp & _ & _).
  pose proof (on_epoch_end_counter self trainer pl_module (train h)) as Hc.
  cbn in Hp. rewrite IH; rewrite Hp, Hc.
  - rewrite Nat2Z.inj_succ. case_decide as Hlt.
    + f_equal. lia.
    + assert (Hfull : (epochs_since_last_check self + 1 = period self)%Z) by lia.
      replace (epochs_since_last_check self + Z.succ (Z.of_nat (length epochs)))%Z
        with (Z.of_nat (length epochs) + 1 * period self)%Z by lia.
      now rewrite Z.mod_add by lia.
  - case_decide; lia.
Qed.

(** X1.  A tracker built with a positive [period] evaluates every
    [period]-th call and no other: after [n] calls its counter is
    [n mod period], and the next call looks at the logged metrics (here seen
    by its warning for an absent metric) exactly when [n + 1] is a multiple
    of [period]. *)
Theorem check_interval_periodic (monitor mode : string) (verbose : bool)
    (period : Z) self epochs pl_module h trainer :
  __init__ monitor mode verbose period = Ok self ->
  (0 < period)%Z ->
  callback_metrics trainer !! monitor = None ->
  let '(self', h', _) := on_epochs_end self epochs pl_module h in
  epochs_since_last_check self' = (Z.of_nat (length epochs) mod period)%Z
  /\ ((on_epoch_end self' trainer pl_module h').2 = [skipping monitor]
      <-> ((Z.of_nat (length epochs) + 1) mod period = 0)%Z).
Proof.
  intros Hinit Hperiod Hlog.
  assert (Hself : SaveBestState.period self = period
                  /\ SaveBestState.monitor self = monitor).
  { unfold __init__, init_with in Hinit.
    destruct (negb _); [discriminate|].
    destruct (if String.eqb mode "min" then _ else _) as [[op best] mode'].
    now injection Hinit as <-. }
  destruct Hself as [Hp Hm].
  apply init_fresh in Hinit as (_ & Hzero & _).
  pose proof (on_epochs_end_counter epochs self pl_module h) as Hcount.
  rewrite Hzero, Hp, Z.add_0_l in Hcount. specialize (Hcount ltac:(lia)).
  pose proof (on_epochs_end_configuration epochs self pl_module h)
    as (Hm' & Hp' & _ & _).
  destruct (on_epochs_end self epochs pl_module h) as [[self' h'] out].
  cbn [fst snd] in *. rewrite Hp in Hp'. rewrite Hm in Hm'.
  split; [exact Hcount|].
  pose proof (Z.mod_pos_bound (Z.of_nat (length epochs)) period Hperiod)
    as Hbound.
  rewrite <- Zplus_mod_idemp_l, <- Hcount.
  destruct (on_epoch_end_cases self' trainer pl_module h')
    as [[Hlt ->]|[(Hle & _ & ->)|[(? & _ & Hsome & _)|(? & _ & Hsome & _)]]];
    rewrite ?Hm', ?Hp' in *; cbn; [| |congruence..].
  - rewrite Z.mod_small by lia. split; [discriminate|lia].
  - replace (epochs_since_last_check self' + 1)%Z with period by lia.
    rewrite Z_mod_same_full. split; reflexivity.
Qed.

(** X2.  The comparison is strict and never holds for a NaN: a logged
    value equal to the best one so far, or a NaN, leaves the best value, the
    snapshot and the heap as they were, in either mode. *)
Theorem tie_or_nan_keeps_snapshot self trainer pl_module h current :
  callback_metrics trainer !! monitor self = Some current ->
  item current = best_model_metric_val self \/ item current = S754_nan ->
  let '(self', h', _) := on_epoch_end self trainer pl_module h in
  best_model_metric_val self' = best_model_metric_val self
  /\ best_model_state self' = best_model_state self
  /\ h' = h.
Proof.
  intros Hlog Hvalue.
  assert (Hcmp : check_monitor_top self (item current) = false).
  { unfold check_monitor_top. destruct Hvalue as [-> | ->].
    - apply call_irrefl.
    - destruct (monitor_op self); [apply SFltb_nan_l|apply SFltb_nan_r]. }
  destruct (on_epoch_end_cases self trainer pl_module h)
    as [[_ ->]|[(_ & _ & ->)|[(? & _ & _ & _ & ->)|(v & _ & Hv & Hbetter & _)]]];
    cbn; auto.
  rewrite Hlog in Hv. injection Hv as <-. congruence.
Qed.

(** X3.  Whatever is logged, the best value of a tracker built by the
    constructor is never a NaN. *)
Theorem best_value_never_nan (monitor mode : string) (verbose : bool)
    (period : Z) self epochs pl_module h :
  __init__ monitor mode verbose period = Ok self ->
  best_model_metric_val (on_epochs_end self epochs pl_module h).1.1
  <> S754_nan.
Proof.
  intros Hinit.
  assert (Hstart : best_model_metric_val self <> S754_nan).
  { unfold __init__, init_with in Hinit.
    destruct (negb _); [discriminate|].
    destruct (String.eqb mode "min"); [injection Hinit as <-; discriminate|].
    destruct (String.eqb mode "max"); [injection Hinit as <-; discriminate|].
    unfold mode_of_monitor in Hinit.
    destruct (_ || _); injection Hinit as <-; discriminate. }
  destruct (on_epochs_end_best epochs self pl_module h)
    as [[-> _]|(Hbetter & _ & _)]; [exact Hstart|].
  now apply call_nan in Hbetter.
Qed.

(** X4.  Over any run from any tracker, the best value either stays (and
    the snapshot with it) or ends as one of the logged values, better than
    the best value at the start, with a snapshot stored: it never gets
    worse. *)
Theorem best_value_progress self epochs pl_module h :
  let self' := (on_epochs_end self epochs pl_module h).1.1 in
  ((best_model_metric_val self' = best_model_metric_val self
    /\ best_model_state self' = best_model_state self)
   \/ (call (monitor_op self) (best_model_metric_val self')
         (best_model_metric_val self) = true
       /\ best_model_metric_val self' ∈ logged self epochs
       /\ is_Some (best_model_state self')))
  /\ call (monitor_op self) (best_model_metric_val self)
       (best_model_metric_val self') = false.
Proof.
  cbn. split; [apply on_epochs_end_best|].
  apply (not_better_kept _ _ (best_model_metric_val self));
    [apply call_irrefl|].
  destruct (on_epochs_end_best epochs self pl_module h)
    as [[-> _]|(Hbetter & _ & _)]; auto.
Qed.

(** X5.  For a tracker that starts without a snapshot, there is still no
    snapshot after a run exactly when the best value is still the one it
    started with. *)
Theorem snapshot_iff_improved self epochs pl_module h :
  best_model_state self = None ->
  let self' := (on_epochs_end self epochs pl_module h).1.1 in
  best_model_state self' = None
  <-> best_model_metric_val self' = best_model_metric_val self.
Proof.
  intros Hnone. cbn.
  destruct (on_epochs_end_best epochs self pl_module h)
    as [[Hbest Hstate]|(Hbetter & _ & Hsome)].
  - rewrite Hbest, Hstate. tauto.
  - split.
    + intros Hno. rewrite Hno in Hsome. now destruct Hsome.
    + intros Hsame. rewrite Hsame, call_irrefl in Hbetter. discriminate.
Qed.

(** X6.  With a check interval of at most one epoch (the default, and any
    smaller [period]) every epoch is evaluated, and no value logged during a
    run is better than the best value at its end. *)
Theorem best_value_optimal self epochs pl_module h v :
  (period self <= 1)%Z -> (0 <= epochs_since_last_check self)%Z ->
  v ∈ logged self epochs ->
  call (monitor_op self) v
    (best_model_metric_val (on_epochs_end self epochs pl_module h).1.1)
  = false.
Proof. intros. now apply on_epochs_end_optimal. Qed.

(** What the training of the epochs alone does to the heap. *)
Lemma on_epochs_end_unlogged epochs :
  forall self pl_module h,
    Forall (fun epoch => callback_metrics epoch.2 !! monitor self = None)
      epochs ->
    (0 <= epochs_since_last_check self < period self)%Z ->
    let '(self', h', out) := on_epochs_end self epochs pl_module h in
    best_model_state self' = best_model_state self
    /\ best_model_metric_val self' = best_model_metric_val self
    /\ h' = foldl (fun h epoch => epoch.1 h) h epochs
    /\ Forall (fun ev => ev = skipping (monitor self)) out
    /\ Z.of_nat (length out)
       = ((epochs_since_last_check self + Z.of_nat (length epochs))
            / period self)%Z.
Proof.
  induction epochs as [|[train trainer] epochs IH];
    intros self pl_module h Habsent Hrange.
  { cbn. split_and!; auto. rewrite Z.add_0_r. symmetry.
    now apply Z.div_small. }
  apply Forall_cons in Habsent as [Hlog Habsent]. cbn in Hlog.
  rewrite on_epochs_end_cons. cbn [fst snd length foldl].
  rewrite Nat2Z.inj_succ.
  destruct (on_epoch_end_cases self trainer pl_module (train h))
    as [[Hlt Heq]|[(Hle & _ & Heq)|[(? & _ & Hsome & _)|(? & _ & Hsome & _)]]];
    [| |congruence..]; rewrite Heq; cbn [fst snd].
  - specialize (IH (set_epochs_since_last_check
                      (epochs_since_last_check self + 1) self)
                  pl_module (train h) Habsent).
    cbn in IH. specialize (IH ltac:(lia)).
    destruct (on_epochs_end _ epochs pl_module (train h)) as [[self' h'] out].
    cbn [fst snd app]. destruct IH as (? & ? & ? & ? & Hlen).
    split_and!; auto. rewrite Hlen. f_equal. lia.
  - specialize (IH (set_epochs_since_last_check 0 self) pl_module (train h)
                  Habsent).
    cbn in IH. specialize (IH ltac:(lia)).
    destruct (on_epochs_end _ epochs pl_module (train h)) as [[self' h'] out].
    cbn [fst snd app length]. destruct IH as (? & ? & ? & ? & Hlen).
    split_and!; auto.
    rewrite ?Z.add_0_l in Hlen. rewrite Nat2Z.inj_succ, Hlen.
    replace (epochs_since_last_check self + Z.succ (Z.of_nat (length epochs)))%Z
      with (Z.of_nat (length epochs) + 1 * period self)%Z by lia.
    rewrite Z.div_add by lia. lia.
Qed.

(** X7.  When the monitored metric is never logged, a tracker built by the
    constructor with a positive [period] stores no snapshot and allocates
    nothing, warns once per check interval and not otherwise, and at the end
    of training hands the absent state to the module's [load_state_dict]. *)
Theorem unlogged_metric_run (monitor mode : string) (verbose : bool)
    (period : Z) self epochs pl_module h trainer :
  __init__ monitor mode verbose period = Ok self ->
  (0 < period)%Z ->
  Forall (fun epoch => callback_metrics epoch.2 !! monitor = None) epochs ->
  let '(self', h', out) := on_epochs_end self epochs pl_module h in
  best_model_state self' = None
  /\ h' = foldl (fun h epoch => epoch.1 h) h epochs
  /\ Forall (fun ev => ev = skipping monitor) out
  /\ Z.of_nat (length out) = (Z.of_nat (length epochs) / period)%Z
  /\ on_train_end self' trainer pl_module h'
     = load_state_dict (model pl_module) None h'.
Proof.
  intros Hinit Hperiod Habsent.
  assert (Hself : SaveBestState.period self = period
                  /\ SaveBestState.monitor self = monitor).
  { unfold __init__, init_with in Hinit.
    destruct (negb _); [discriminate|].
    destruct (if String.eqb mode "min" then _ else _) as [[op best] mode'].
    now injection Hinit as <-. }
  destruct Hself as [Hp Hm].
  apply init_fresh in Hinit as (Hnone & Hzero & _).
  pose proof (on_epochs_end_unlogged epochs self pl_module h) as Hrun.
  rewrite Hm, Hp, Hzero, Hnone, Z.add_0_l in Hrun.
  specialize (Hrun Habsent ltac:(lia)).
  destruct (on_epochs_end self epochs pl_module h) as [[self' h'] out].
  destruct Hrun as (Hstate & _ & Hheap & Hout & Hlen).
  split_and!; try assumption.
  unfold on_train_end. now rewrite Hstate.
Qed.

End MonitoringFacts.

(** ** What a capture allocates, and restoring twice *)

Lemma deepcopy_items_grows (items : ordered_dict) :
  forall (memo : list (loc * loc)) (h : heap),
    h `prefix_of` (deepcopy_items items memo h).2
    /\ length (deepcopy_items items memo h).2 <= length h + length items
    /\ keys (deepcopy_items items memo h).1 = keys items.
Proof.
  induction items as [|[k l] items IH]; intros memo h; cbn.
  { split_and!; [reflexivity|lia|reflexivity]. }
  destruct (assoc l memo) as [l'|].
  - destruct (IH memo h) as (Hpre & Hlen & Hkeys).
    destruct (deepcopy_items items memo h) as [items' h']. cbn in *.
    split_and!; [exact Hpre|lia|]. unfold keys in *. cbn. now f_equal.
  - destruct (IH ((l, length h) :: memo) (h ++ [read h l]))
      as (Hpre & Hlen & Hkeys).
    destruct (deepcopy_items items _ (h ++ [read h l])) as [items' h'].
    cbn in *. rewrite length_app in Hlen. cbn in Hlen. split_and!.
    + transitivity (h ++ [read h l]); [|exact Hpre].
      apply prefix_app_r. reflexivity.
    + lia.
    + unfold keys in *. cbn. now f_equal.
Qed.

Lemma deepcopy_items_fresh (base : nat) (items : ordered_dict) :
  forall (memo : list (loc * loc)) (h : heap),
    base <= length h ->
    (forall l l', assoc l memo = Some l' -> base <= l' < length h) ->
    Forall (fun e => base <= e.2 < length (deepcopy_items items memo h).2)
      (deepcopy_items items memo h).1.
Proof.
  induction items as [|[k l] items IH]; intros memo h Hbase Hmemo; cbn.
  { constructor. }
  destruct (assoc l memo) as [l'|] eqn:Hseen.
  - specialize (IH memo h Hbase Hmemo).
    destruct (deepcopy_items_grows items memo h) as (Hpre & _ & _).
    apply prefix_length in Hpre.
    destruct (deepcopy_items items memo h) as [items' h']. cbn in *.
    constructor; [|exact IH]. specialize (Hmemo l l' Hseen). cbn. lia.
  - specialize (IH ((l, length h) :: memo) (h ++ [read h l])).
    destruct (deepcopy_items_grows items ((l, length h) :: memo)
                (h ++ [read h l])) as (Hpre & _ & _).
    apply prefix_length in Hpre. rewrite length_app in Hpre. cbn in Hpre.
    destruct (deepcopy_items items _ (h ++ [read h l])) as [items' h'].
    cbn in *. constructor; [cbn; lia|]. apply IH.
    + rewrite length_app. lia.
    + intros l1 l1'. rewrite length_app. cbn.
      case_decide; [intros [= <-]; lia|].
      intros Hin. specialize (Hmemo l1 l1' Hin). lia.
Qed.

(** Copying into tensors that already hold what their sources hold changes
    nothing. *)
Lemma foldl_copy_id (d : ordered_dict) (todo : ordered_dict) (h : heap) :
  (forall k p, (k, p) ∈ todo ->
     p < length h
     /\ exists src, assoc k d = Some src /\ read h src = read h p) ->
  foldl (copy_ d) h todo = h.
Proof.
  induction todo as [|[k p] todo IH]; intros Hsame; cbn; [reflexivity|].
  destruct (Hsame k p) as (Hp & src & Hsrc & Hval).
  { apply elem_of_cons. now left. }
  assert (Hstep : copy_ d h (k, p) = h).
  { unfold copy_. cbn. rewrite Hsrc, Hval. rewrite decide_True by reflexivity.
    apply list_insert_id. unfold read.
    destruct (lookup_lt_is_Some_2 h p Hp) as [v Hv]. now rewrite Hv. }
  rewrite Hstep. apply IH. intros k' p' Hin. apply Hsame.
  apply elem_of_cons. now right.
Qed.

(** What a snapshot taken in [h0] offers to a restore in [h2]. *)
Lemma captured_ready (m : nn_Module) (h0 h2 : heap) :
  well_formed m h0 ->
  trained m (deepcopy (named_tensors m) h0).1
    (deepcopy (named_tensors m) h0).2 h2 ->
  forall k p, (k, p) ∈ named_tensors m ->
    p < length h0 /\ p < length h2
    /\ length (read h2 p) = length (read h0 p)
    /\ exists src,
         assoc k (deepcopy (named_tensors m) h0).1 = Some src
         /\ length h0 <= src /\ read h2 src = read h0 p.
Proof.
  intros [Hnodup Halloc] (Hlen2 & Hsnap2 & Hshape2) k p Hin.
  destruct (deepcopy_spec (named_tensors m) h0 Halloc) as [Hpre Hcopy].
  pose proof (prefix_length _ _ Hpre) as Hlen1.
  assert (Hp : p < length h0).
  { rewrite Forall_forall in Halloc. exact (Halloc (k, p) Hin). }
  pose proof (assoc_NoDup k p _ Hnodup Hin) as Hk.
  pose proof (assoc_Forall2 (copied h0 (deepcopy (named_tensors m) h0).2) k
                _ _ Hcopy) as Hrel.
  rewrite Hk in Hrel.
  destruct (assoc k (deepcopy (named_tensors m) h0).1) as [src|] eqn:Hsrc;
    inversion Hrel as [? ? [[Hlo Hhi] Hread]|]; subst.
  split_and!; [exact Hp|lia| |].
  - rewrite (Hshape2 k p Hin). now rewrite (read_prefix h0).
  - exists src. split_and!; [reflexivity|exact Hlo|].
    rewrite (Hsnap2 k src (assoc_elem_of _ _ _ Hsrc)). exact Hread.
Qed.

Section CaptureFacts.
Import SaveBestState.
Context {DataLoader : Type}.

(** X8.  For any model, a call of [on_epoch_end] only ever appends to the
    heap, by at most one storage per entry of the state dictionary: nothing
    that was allocated before is written.  A snapshot it stores has the
    state dictionary's keys and lies wholly in the appended part. *)
Theorem on_epoch_end_only_allocates {M : Type} `{StatefulModel M}
    (self : t) (trainer : Trainer DataLoader) (pl_module : LightningModule M)
    (h : heap) :
  let '(self', h', _) := on_epoch_end self trainer pl_module h in
  h `prefix_of` h'
  /\ length h' <= length h + length (state_dict (model pl_module))
  /\ (best_model_state self' = best_model_state self
      \/ exists snap,
           best_model_state self' = Some snap
           /\ keys snap = keys (state_dict (model pl_module))
           /\ Forall (fun e => length h <= e.2 < length h') snap).
Proof.
  destruct (on_epoch_end_cases self trainer pl_module h)
    as [[_ ->]|[(_ & _ & ->)|[(? & _ & _ & _ & ->)|(v & _ & _ & _ & ->)]]];
    cbn; try (split_and!; [reflexivity|lia|now left]).
  destruct (deepcopy_items_grows (state_dict (model pl_module)) [] h)
    as (Hpre & Hlen & Hkeys).
  pose proof (deepcopy_items_fresh (length h) (state_dict (model pl_module))
                [] h (le_n _)) as Hfresh.
  fold (deepcopy (state_dict (model pl_module)) h) in *.
  split_and!; [exact Hpre|exact Hlen|right].
  eexists. split_and!; [reflexivity|exact Hkeys|].
  apply Hfresh. intros l l'. cbn. discriminate.
Qed.

End CaptureFacts.

Section RestoreFacts.
Import SaveBestState.
Context {DataLoader : Type}.

(** X9.  Restoring is idempotent: after an improving call and any training
    that leaves the snapshot alone, [on_train_end] succeeds, and a second
    [on_train_end] on the restored heap succeeds again and changes
    nothing. *)
Theorem restore_twice (self : t) (trainer : Trainer DataLoader)
    (m : nn_Module) (h0 h2 : heap) (current : metric) :
  well_formed m h0 ->
  (period self <= epochs_since_last_check self + 1)%Z ->
  callback_metrics trainer !! monitor self = Some current ->
  check_monitor_top self (item current) = true ->
  let pl_module := {| model := m |} in
  let '(self1, h1, _) := on_epoch_end self trainer pl_module h0 in
  (forall snap, best_model_state self1 = Some snap -> trained m snap h1 h2) ->
  exists h3,
    on_train_end self1 trainer pl_module h2 = (Ok (), h3)
    /\ on_train_end self1 trainer pl_module h3 = (Ok (), h3).
Proof.
  intros Hwf Hle Hlog Hcmp pl_module.
  rewrite (on_epoch_end_improved self trainer pl_module h0 current)
    by assumption.
  cbn [model pl_module state_dict nn_Module_model best_model_state set_best].
  intros Htrained. specialize (Htrained _ eq_refl).
  pose proof (captured_ready m h0 h2 Hwf Htrained) as Hready.
  destruct Hwf as [Hnodup Halloc].
  destruct (deepcopy_spec (named_tensors m) h0 Halloc) as [_ Hcopy].
  set (snap := (deepcopy (named_tensors m) h0).1) in *.
  assert (Hkeys : keys snap = keys (named_tensors m)).
  { unfold keys. exact (Forall2_same_keys _ _ _ Hcopy). }
  destruct (foldl_copy_spec snap (read h0) (length h0) (named_tensors m) h2
              Hready) as (Hlen & Hhigh & _ & Hdone).
  set (h3 := foldl (copy_ snap) h2 (named_tensors m)) in *.
  exists h3. unfold on_train_end. cbn. unfold nn_load_state_dict.
  fold h3. split.
  - rewrite (loadable_all snap (read h0) h2), (expected_all _ _ Hkeys);
      [reflexivity|].
    intros k p Hin.
    destruct (Hready k p Hin) as (_ & _ & Hshape & src & Hsrc & _ & Hval).
    eauto.
  - rewrite (loadable_all snap (read h0) h3), (expected_all _ _ Hkeys).
    + cbn. f_equal. apply foldl_copy_id. intros k p Hin.
      destruct (Hready k p Hin) as (_ & Hp & _ & src & Hsrc & Hlo & Hval).
      split; [lia|]. exists src. split; [exact Hsrc|].
      now rewrite (Hhigh src Hlo), Hval, (Hdone k p Hin).
    + intros k p Hin.
      destruct (Hready k p Hin) as (_ & _ & _ & src & Hsrc & Hlo & Hval).
      split; [now rewrite (Hdone k p Hin)|].
      exists src. split; [exact Hsrc|]. now rewrite (Hhigh src Hlo).
Qed.

End RestoreFacts.

(** ** The Stereoscope constructors *)

Section SpatialFacts.
Import SpatialStereoscope.
Context {Rest Base Params Kwargs Deconv InitParams : Type}.
Variable register_tensor_from_anndata :
  AnnData Rest -> string -> string -> string -> AnnData Rest * option exn.
Variable BaseModelClass_init :
  AnnData Rest -> bool -> AnnData Rest * result Base.
Variable SpatialDeconv : nat -> Params -> string -> Kwargs -> result Deconv.
Variable _get_init_params :
  AnnData Rest -> Params -> bool -> string -> Kwargs -> InitParams.
Hypothesis register_keeps_obs :
  forall a k attr key, keeps_obs a (register_tensor_from_anndata a k attr key).1.
Hypothesis base_keeps_obs :
  forall a gpu, keeps_obs a (BaseModelClass_init a gpu).1.

Abbreviation init :=
  (SpatialStereoscope.__init__ register_tensor_from_anndata
     BaseModelClass_init SpatialDeconv _get_init_params).

(** The constructor's whole effect on [obs], whatever its outcome. *)
Lemma init_obs (st_adata : AnnData Rest) (params : Params) (use_gpu : bool)
    (prior_weight : string) (model_kwargs : Kwargs) :
  let after := (init st_adata params use_gpu prior_weight model_kwargs).1 in
  n_obs after = n_obs st_adata
  /\ obs after = <["_indices" := arange (n_obs st_adata)]> (obs st_adata).
Proof.
  unfold SpatialStereoscope.__init__.
  pose proof (register_keeps_obs
                (set_obs "_indices" (arange (n_obs st_adata)) st_adata)
                "ind_x" "obs" "_indices") as [Hn1 Hobs1].
  destruct (register_tensor_from_anndata _ _ _ _) as [a1 [e|]]; cbn in *.
  { auto. }
  pose proof (base_keeps_obs a1 use_gpu) as [Hn2 Hobs2].
  destruct (BaseModelClass_init a1 use_gpu) as [a2 [b|e]]; cbn in *.
  - destruct (SpatialDeconv _ _ _ _); cbn; split; congruence.
  - split; congruence.
Qed.

(** X10.  A model that was built has exactly as many spots as the caller's
    AnnData has observations, says so in its summary, and the index column
    left in the AnnData lists exactly the valid spot indices. *)
Theorem init_builds_for_n_obs (st_adata after : AnnData Rest)
    (params : Params) (use_gpu : bool) (prior_weight : string)
    (model_kwargs : Kwargs) (self : t) :
  init st_adata params use_gpu prior_weight model_kwargs = (after, Ok self) ->
  SpatialDeconv (n_obs st_adata) params prior_weight model_kwargs
    = Ok (model self)
  /\ _model_summary_string self
     = "RNADeconv Model with params: " +:+ newline +:+ "n_spots: "
         +:+ pretty (n_obs st_adata)
  /\ exists column,
       obs after !! "_indices" = Some column
       /\ length column = n_obs st_adata
       /\ Forall (fun i => (0 <= i < Z.of_nat (n_obs st_adata))%Z) column.
Proof.
  intros Hinit.
  destruct (init_obs st_adata params use_gpu prior_weight model_kwargs)
    as [Hn Hobs].
  rewrite Hinit in Hn, Hobs. cbn in Hn, Hobs.
  split_and!.
  - revert Hinit. unfold SpatialStereoscope.__init__.
    pose proof (register_keeps_obs
                  (set_obs "_indices" (arange (n_obs st_adata)) st_adata)
                  "ind_x" "obs" "_indices") as [Hn1 _].
    destruct (register_tensor_from_anndata _ _ _ _) as [a1 [e|]];
      [intros [= _ ?]; discriminate|].
    pose proof (base_keeps_obs a1 use_gpu) as [Hn2 _].
    destruct (BaseModelClass_init a1 use_gpu) as [a2 [b|e]];
      [|intros [= _ ?]; discriminate].
    cbn in *. rewrite Hn2, Hn1.
    destruct (SpatialDeconv _ _ _ _) as [d|e]; [|intros [= _ ?]; discriminate].
    now intros [= _ <-].
  - revert Hinit. unfold SpatialStereoscope.__init__.
    pose proof (register_keeps_obs
                  (set_obs "_indices" (arange (n_obs st_adata)) st_adata)
                  "ind_x" "obs" "_indices") as [Hn1 _].
    destruct (register_tensor_from_anndata _ _ _ _) as [a1 [e|]];
      [intros [= _ ?]; discriminate|].
    pose proof (base_keeps_obs a1 use_gpu) as [Hn2 _].
    destruct (BaseModelClass_init a1 use_gpu) as [a2 [b|e]];
      [|intros [= _ ?]; discriminate].
    cbn in *.
    destruct (SpatialDeconv _ _ _ _) as [d|e]; [|intros [= _ ?]; discriminate].
    intros [= _ <-]. cbn. now rewrite Hn2, Hn1.
  - exists (arange (n_obs st_adata)). rewrite Hobs.
    split_and!; [apply lookup_insert_eq|apply arange_length|].
    unfold arange. apply Forall_fmap, Forall_forall. intros i Hi.
    apply elem_of_seq in Hi. cbn. lia.
Qed.

(** X11.  Constructing a second model on the AnnData the first construction
    left behind does not change its observations again: the column is
    written once more with the same content. *)
Theorem init_twice_same_obs (st_adata : AnnData Rest)
    (params params' : Params) (use_gpu use_gpu' : bool)
    (prior_weight prior_weight' : string)
    (model_kwargs model_kwargs' : Kwargs) :
  let once := (init st_adata params use_gpu prior_weight model_kwargs).1 in
  let twice := (init once params' use_gpu' prior_weight' model_kwargs').1 in
  n_obs twice = n_obs once /\ obs twice = obs once.
Proof.
  cbn.
  destruct (init_obs st_adata params use_gpu prior_weight model_kwargs)
    as [Hn Hobs].
  destruct (init_obs
              (init st_adata params use_gpu prior_weight model_kwargs).1
              params' use_gpu' prior_weight' model_kwargs') as [Hn' Hobs'].
  cbn in *. split; [exact Hn'|].
  rewrite Hobs', Hn, Hobs. apply insert_insert_eq.
Qed.

End SpatialFacts.

Section RNAFacts.
Import RNAStereoscope.
Context {Rest Base Kwargs Deconv InitParams : Type}.
Variable BaseModelClass_init :
  SpatialStereoscope.AnnData Rest -> bool
  -> SpatialStereoscope.AnnData Rest * result Base.
Variable summary_stats : Base -> gmap string nat.
Variable RNADeconv : nat -> nat -> Kwargs -> result Deconv.
Variable _get_init_params :
  SpatialStereoscope.AnnData Rest -> bool -> Kwargs -> InitParams.

Abbreviation rna_init :=
  (RNAStereoscope.__init__ BaseModelClass_init summary_stats RNADeconv
     _get_init_params).

(** X12.  Unlike [SpatialStereoscope], [RNAStereoscope] does nothing to the
    AnnData beyond what the base class does.  A summary statistic that is
    missing ends the construction with its [KeyError] (["n_vars"] first),
    and a model that was built carries the two statistics and the module
    made from them. *)
Theorem rna_init_outcome (sc_adata : SpatialStereoscope.AnnData Rest)
    (use_gpu : bool) (model_kwargs : Kwargs) :
  (rna_init sc_adata use_gpu model_kwargs).1
    = (BaseModelClass_init sc_adata use_gpu).1
  /\ (forall base,
        (BaseModelClass_init sc_adata use_gpu).2 = Ok base ->
        (summary_stats base !! "n_vars" = None ->
           (rna_init sc_adata use_gpu model_kwargs).2
           = inr (KeyError "n_vars"))
        /\ (is_Some (summary_stats base !! "n_vars") ->
            summary_stats base !! "n_labels" = None ->
              (rna_init sc_adata use_gpu model_kwargs).2
              = inr (KeyError "n_labels")))
  /\ (forall self,
        (rna_init sc_adata use_gpu model_kwargs).2 = inl self ->
        (BaseModelClass_init sc_adata use_gpu).2 = Ok (base self)
        /\ summary_stats (base self) !! "n_vars" = Some (n_genes self)
        /\ summary_stats (base self) !! "n_labels" = Some (n_labels self)
        /\ RNADeconv (n_genes self) (n_labels self) model_kwargs
           = Ok (model self)).
Proof.
  unfold RNAStereoscope.__init__.
  destruct (BaseModelClass_init sc_adata use_gpu) as [a [b|e]]; cbn.
  2:{ split_and!; [reflexivity|discriminate|discriminate]. }
  destruct (summary_stats b !! "n_vars") as [g|] eqn:Hg; cbn.
  2:{ split_and!; [reflexivity| |discriminate].
      intros base [= <-]. rewrite Hg. split; [reflexivity|].
      intros [? ?]; discriminate. }
  destruct (summary_stats b !! "n_labels") as [n|] eqn:Hn; cbn.
  2:{ split_and!; [reflexivity| |discriminate].
      intros base [= <-]. rewrite Hg, Hn. split; [discriminate|reflexivity]. }
  destruct (RNADeconv g n model_kwargs) as [d|e] eqn:Hd; cbn.
  - split_and!; [reflexivity| |].
    + intros base [= <-]. rewrite Hg, Hn. split; discriminate.
    + intros self [= <-]. cbn. auto.
  - split_and!; [reflexivity| |discriminate].
    intros base [= <-]. rewrite Hg, Hn. split; discriminate.
Qed.

End RNAFacts.

(** ** The parameters a run ends with *)

Section BestEpoch.
Import SaveBestState Monitoring Restoring.
Context {DataLoader : Type}.
Variable m : nn_Module.
Variable h0 : heap.
Hypothesis m_well_formed : well_formed m h0.

Abbreviation pl_module := {| model := m |}.

Lemma tensor_below_base (k : string) (p : nat) :
  (k, p) ∈ named_tensors m -> p < length h0.
Proof.
  destruct m_well_formed as [_ Halloc]. rewrite Forall_forall in Halloc.
  intros Hin. exact (Halloc (k, p) Hin).
Qed.

Lemma above_base_no_tensor (l : nat) :
  length h0 <= l -> l ∉ (named_tensors m).*2.
Proof.
  intros Hl Hin. apply list_elem_of_fmap in Hin as ([k p] & -> & Hin).
  apply tensor_below_base in Hin. cbn in Hl. lia.
Qed.

Lemma tracked_seen (self : t) (h : heap)
    (seen seen' : list (option spec_float * heap)) :
  seen ⊆ seen' -> tracked m h0 self h seen -> tracked m h0 self h seen'.
Proof.
  intros Hsub (Hlen & Hshape & Hsnap). split_and!; [exact Hlen|exact Hshape|].
  intros snap Hstate.
  destruct (Hsnap snap Hstate) as (hcap & Hin & Hcap & Hholds).
  exists hcap. split_and!; [now apply Hsub|exact Hcap|exact Hholds].
Qed.

Lemma tracked_train (train : heap -> heap) (self : t) (h : heap)
    (seen : list (option spec_float * heap)) :
  in_place m train -> tracked m h0 self h seen ->
  tracked m h0 self (train h) seen.
Proof.
  intros Hplace (Hlen & Hshape & Hsnap).
  destruct (Hplace h) as (Hgrow & Hframe & Hkeep).
  split_and!; [lia| |].
  - intros k p Hin. rewrite <- (Hshape k p Hin). apply Hkeep.
    apply list_elem_of_fmap. now exists (k, p).
  - intros snap Hstate.
    destruct (Hsnap snap Hstate) as (hcap & Hin & Hcap & Hkeys & Hentries).
    exists hcap. split_and!; [exact Hin|exact Hcap|].
    split; [exact Hkeys|].
    intros k p Hp. destruct (Hentries k p Hp) as (src & Hsrc & Hrange & Hval).
    exists src. split_and!; [exact Hsrc|lia|lia|].
    rewrite Hframe; [exact Hval|lia|]. apply above_base_no_tensor. lia.
Qed.

Lemma tracked_hook (self : t) (trainer : Trainer DataLoader) (h : heap)
    (seen : list (option spec_float * heap)) :
  tracked m h0 self h seen ->
  tracked m h0 (on_epoch_end self trainer pl_module h).1.1
    (on_epoch_end self trainer pl_module h).1.2
    (seen ++ [(item <$> callback_metrics trainer !! monitor self, h)]).
Proof.
  intros Htracked.
  assert (Hold : tracked m h0 self h
                   (seen ++ [(item <$> callback_metrics trainer !! monitor self,
                              h)])).
  { apply (tracked_seen self h seen); [|exact Htracked].
    intros x Hx. apply elem_of_app. now left. }
  destruct (on_epoch_end_cases self trainer pl_module h)
    as [[_ ->]|[(_ & _ & ->)|[(? & _ & _ & _ & ->)|(v & _ & Hlog & _ & ->)]]];
    cbn [fst snd]; try exact Hold.
  clear Hold. destruct Htracked as (Hlen & Hshape & _).
  cbn [model state_dict nn_Module_model].
  destruct m_well_formed as [Hnodup Halloc].
  assert (Hhere : Forall (fun e => e.2 < length h) (named_tensors m)).
  { apply (Forall_impl _ _ _ Halloc). intros e He. lia. }
  destruct (deepcopy_spec (named_tensors m) h Hhere) as [Hpre Hcopy].
  pose proof (prefix_length _ _ Hpre) as Hgrow.
  split_and!; [lia| |].
  - intros k p Hin. rewrite <- (Hshape k p Hin). f_equal.
    apply read_prefix; [exact Hpre|].
    rewrite Forall_forall in Hhere. exact (Hhere (k, p) Hin).
  - intros snap [= <-]. exists h. split_and!; [| |split].
    + apply elem_of_app. right. rewrite Hlog. cbn. apply list_elem_of_singleton.
      reflexivity.
    + exact Hshape.
    + unfold keys. exact (Forall2_same_keys _ _ _ Hcopy).
    + intros k p Hin.
      pose proof (assoc_NoDup k p _ Hnodup Hin) as Hk.
      pose proof (assoc_Forall2 (copied h (deepcopy (named_tensors m) h).2) k
                    _ _ Hcopy) as Hrel.
      rewrite Hk in Hrel.
      destruct (assoc k (deepcopy (named_tensors m) h).1) as [src|];
        inversion Hrel as [? ? [[Hlo Hhi] Hread]|]; subst.
      exists src. split_and!; [reflexivity|lia|exact Hhi|exact Hread].
Qed.

Lemma tracked_run (epochs : list ((heap -> heap) * Trainer DataLoader)) :
  forall (self : t) (h : heap) (seen : list (option spec_float * heap)),
    Forall (fun epoch => in_place m epoch.1) epochs ->
    tracked m h0 self h seen ->
    tracked m h0 (on_epochs_end self epochs pl_module h).1.1
      (on_epochs_end self epochs pl_module h).1.2
      (seen ++ checkpoints self epochs pl_module h).
Proof.
  induction epochs as [|[train trainer] epochs IH];
    intros self h seen Hplace Htracked.
  { cbn. now rewrite app_nil_r. }
  apply Forall_cons in Hplace as [Hhead Hplace]. cbn in Hhead.
  rewrite on_epochs_end_cons. cbn [fst snd checkpoints].
  pose proof (tracked_hook self trainer (train h) seen
                (tracked_train train self h seen Hhead Htracked)) as Hstep.
  specialize (IH _ _ _ Hplace Hstep).
  destruct (on_epoch_end self trainer pl_module (train h)) as [[self1 h1] out].
  cbn [fst snd] in *. now rewrite <- app_assoc in IH.
Qed.

(** Restoring a tracked snapshot brings back the tensors of its
    checkpoint. *)
Lemma tracked_restore (self : t) (trainer : Trainer DataLoader) (h : heap)
    (seen : list (option spec_float * heap)) (snap : ordered_dict) :
  tracked m h0 self h seen ->
  best_model_state self = Some snap ->
  exists hbest h',
    (Some (best_model_metric_val self), hbest) ∈ seen
    /\ on_train_end self trainer pl_module h = (Ok (), h')
    /\ forall k, entry (named_tensors m) h' k = entry (named_tensors m) hbest k.
Proof.
  intros (Hlen & Hshape & Hsnap) Hstate.
  destruct (Hsnap snap Hstate) as (hcap & Hin & Hcap & Hkeys & Hentries).
  assert (Hready : forall k p, (k, p) ∈ named_tensors m ->
            p < length h0 /\ p < length h
            /\ length (read h p) = length (read hcap p)
            /\ exists src, assoc k snap = Some src /\ length h0 <= src
                 /\ read h src = read hcap p).
  { intros k p Hp. pose proof (tensor_below_base k p Hp) as Hbelow.
    destruct (Hentries k p Hp) as (src & Hsrc & Hrange & Hval).
    split_and!; [exact Hbelow|lia| |].
    - now rewrite (Hshape k p Hp), (Hcap k p Hp).
    - exists src. split_and!; [exact Hsrc|lia|exact Hval]. }
  destruct (foldl_copy_spec snap (read hcap) (length h0) (named_tensors m) h
              Hready) as (_ & _ & _ & Hdone).
  exists hcap, (foldl (copy_ snap) h (named_tensors m)).
  split_and!; [exact Hin| |].
  - unfold on_train_end. rewrite Hstate. cbn. unfold nn_load_state_dict.
    rewrite (loadable_all snap (read hcap) h), (expected_all _ _ Hkeys);
      [reflexivity|].
    intros k p Hp.
    destruct (Hready k p Hp) as (_ & _ & Hsh & src & Hsrc & _ & Hval). eauto.
  - intros k. unfold entry.
    destruct (assoc k (named_tensors m)) as [p|] eqn:Hk; [|reflexivity].
    cbn. f_equal. apply (Hdone k). now apply assoc_elem_of.
Qed.

(** X13.  End to end: when training works in place on the module's
    tensors, a run from a tracker without snapshot that ends with a snapshot
    can be closed by [on_train_end], which succeeds and leaves every tensor of
    the module as it was when the hook saw an epoch that logged the final
    best value. *)
Theorem best_epoch_restored (self : t)
    (epochs : list ((heap -> heap) * Trainer DataLoader))
    (trainer : Trainer DataLoader) :
  Forall (fun epoch => in_place m epoch.1) epochs ->
  best_model_state self = None ->
  let '(self', h', _) := on_epochs_end self epochs pl_module h0 in
  is_Some (best_model_state self') ->
  exists hbest h'',
    (Some (best_model_metric_val self'), hbest)
    ∈ checkpoints self epochs pl_module h0
    /\ on_train_end self' trainer pl_module h' = (Ok (), h'')
    /\ forall k,
         entry (named_tensors m) h'' k = entry (named_tensors m) hbest k.
Proof.
  intros Hplace Hnone.
  assert (Hstart : tracked m h0 self h0 []).
  { split_and!; [lia|intros k p _; reflexivity|].
    intros snap Hsome. congruence. }
  pose proof (tracked_run epochs self h0 [] Hplace Hstart) as Hend.
  destruct (on_epochs_end self epochs pl_module h0) as [[self' h'] out].
  cbn [fst snd app] in Hend. intros [snap Hsome].
  exact (tracked_restore self' trainer h' _ snap Hend Hsome).
Qed.

End BestEpoch.

(** * Part V: the further properties at the sample objects *)

Section RunWitnesses.
Import SaveBestState Monitoring.

Lemma check_interval_periodic_witness :
  let '(self', h', _) :=
    on_epochs_end (Sample.tracker 3) SampleRun.epochs Sample.pl_module
      Sample.net_heap in
  epochs_since_last_check self'
  = (Z.of_nat (length SampleRun.epochs) mod 3)%Z
  /\ ((on_epoch_end self' (Sample.trainer ∅) Sample.pl_module h').2
      = [skipping "elbo_validation"]
      <-> ((Z.of_nat (length SampleRun.epochs) + 1) mod 3 = 0)%Z).
Proof.
  exact (check_interval_periodic "elbo_validation" "min" false 3
           (Sample.tracker 3) SampleRun.epochs Sample.pl_module
           Sample.net_heap (Sample.trainer ∅) eq_refl eq_refl eq_refl).
Defined.

Lemma tie_or_nan_keeps_snapshot_witness :
  let '(self', h', _) :=
    on_epoch_end (Sample.tracker 1) (Sample.trainer SampleRun.nan_logged)
      Sample.pl_module Sample.net_heap in
  best_model_metric_val self' = np_Inf
  /\ best_model_state self' = None
  /\ h' = Sample.net_heap.
Proof.
  exact (tie_or_nan_keeps_snapshot (Sample.tracker 1)
           (Sample.trainer SampleRun.nan_logged) Sample.pl_module
           Sample.net_heap (FloatMetric S754_nan) eq_refl
           (or_intror eq_refl)).
Defined.

Lemma best_value_never_nan_witness :
  best_model_metric_val
    (on_epochs_end (Sample.tracker 1) SampleRun.epochs Sample.pl_module
       Sample.net_heap).1.1
  <> S754_nan.
Proof.
  exact (best_value_never_nan "elbo_validation" "min" false 1
           (Sample.tracker 1) SampleRun.epochs Sample.pl_module
           Sample.net_heap eq_refl).
Defined.

Lemma snapshot_iff_improved_witness :
  let self' :=
    (on_epochs_end (Sample.tracker 1) SampleRun.epochs Sample.pl_module
       Sample.net_heap).1.1 in
  best_model_state self' = None <-> best_model_metric_val self' = np_Inf.
Proof.
  exact (snapshot_iff_improved (Sample.tracker 1) SampleRun.epochs
           Sample.pl_module Sample.net_heap eq_refl).
Defined.

Lemma best_value_optimal_witness :
  SFltb Sample.one
    (best_model_metric_val
       (on_epochs_end (Sample.tracker 1) SampleRun.epochs Sample.pl_module
          Sample.net_heap).1.1)
  = false.
Proof.
  assert (Hperiod : (period (Sample.tracker 1) <= 1)%Z) by (cbn; lia).
  assert (Hcounter : (0 <= epochs_since_last_check (Sample.tracker 1))%Z)
    by (cbn; lia).
  assert (Hlogged : Sample.one ∈ logged (Sample.tracker 1) SampleRun.epochs).
  { apply elem_of_cons. now left. }
  exact (best_value_optimal (Sample.tracker 1) SampleRun.epochs
           Sample.pl_module Sample.net_heap Sample.one Hperiod Hcounter
           Hlogged).
Defined.

Lemma unlogged_metric_run_witness :
  let '(self', h', out) :=
    on_epochs_end (Sample.tracker 2) SampleRun.silent_epochs Sample.pl_module
      Sample.net_heap in
  best_model_state self' = None
  /\ h' = foldl (fun h epoch => epoch.1 h) Sample.net_heap
            SampleRun.silent_epochs
  /\ Forall (fun ev => ev = skipping "elbo_validation") out
  /\ Z.of_nat (length out)
     = (Z.of_nat (length SampleRun.silent_epochs) / 2)%Z
  /\ on_train_end self' (Sample.trainer ∅) Sample.pl_module h'
     = load_state_dict Sample.net None h'.
Proof.
  assert (Habsent :
            Forall (fun epoch : (list (list Z) -> list (list Z)) * Trainer nat =>
                      callback_metrics epoch.2 !! "elbo_validation" = None)
              SampleRun.silent_epochs) by (repeat constructor).
  exact (unlogged_metric_run "elbo_validation" "min" false 2
           (Sample.tracker 2) SampleRun.silent_epochs Sample.pl_module
           Sample.net_heap (Sample.trainer ∅) eq_refl eq_refl Habsent).
Defined.

(** The runs of the samples, evaluated. *)
Example sample_run :
  let '(self', h', out) :=
    on_epochs_end (Sample.tracker 1) SampleRun.epochs Sample.pl_module
      Sample.net_heap in
  best_model_metric_val self' = SampleRun.half
  /\ best_model_state self' = Some [("weight", 4); ("bias", 5)]
  /\ h' = [[11; 22]; [30]; [11; 22]; [30]; [11; 22]; [30]]%Z
  /\ out = [skipping "elbo_validation"].
Proof. repeat split. Qed.

Example sample_silent_run :
  (on_epochs_end (Sample.tracker 2) SampleRun.silent_epochs Sample.pl_module
     Sample.net_heap).2
  = [skipping "elbo_validation"].
Proof. reflexivity. Qed.

Lemma restore_twice_witness :
  let '(self1, h1, _) :=
    on_epoch_end (Sample.tracker 1) (Sample.trainer Sample.elbo_logged)
      Sample.pl_module Sample.net_heap in
  exists h3,
    on_train_end self1 (Sample.trainer Sample.elbo_logged) Sample.pl_module
      (SampleRun.train_step h1) = (Ok (), h3)
    /\ on_train_end self1 (Sample.trainer Sample.elbo_logged)
         Sample.pl_module h3 = (Ok (), h3).
Proof.
  pose proof (restore_twice (Sample.tracker 1)
                (Sample.trainer Sample.elbo_logged) Sample.net Sample.net_heap
                (SampleRun.train_step [[10; 20]; [30]; [10; 20]; [30]]%Z)
                (FloatMetric Sample.one) sample_net_well_formed
                ltac:(cbn; lia) eq_refl eq_refl) as Hw.
  assert (Hcall :
            on_epoch_end (Sample.tracker 1)
              (Sample.trainer Sample.elbo_logged) Sample.pl_module
              Sample.net_heap
            = (set_best [("weight", 2); ("bias", 3)] Sample.one
                 (Sample.tracker 1),
               [[10; 20]; [30]; [10; 20]; [30]]%Z, [])) by reflexivity.
  cbv zeta in Hw. change {| model := Sample.net |} with Sample.pl_module in Hw.
  rewrite Hcall in Hw |- *. apply Hw. intros snap [= <-]. split_and!.
  - cbn. lia.
  - intros k s Hin.
    apply elem_of_cons in Hin as [[= -> ->]|Hin]; [reflexivity|].
    apply elem_of_cons in Hin as [[= -> ->]|Hin]; [reflexivity|].
    now apply elem_of_nil in Hin.
  - intros k p Hin.
    apply elem_of_cons in Hin as [[= -> ->]|Hin]; [reflexivity|].
    apply elem_of_cons in Hin as [[= -> ->]|Hin]; [reflexivity|].
    now apply elem_of_nil in Hin.
Defined.

End RunWitnesses.

Section ConstructorWitnesses.
Import SpatialStereoscope.

Lemma sample_register_keeps_obs :
  forall a k attr key, keeps_obs a (Sample.register a k attr key).1.
Proof. intros a k attr key. split; reflexivity. Qed.

Lemma sample_base_keeps_obs :
  forall a gpu, keeps_obs a (Sample.base_init a gpu).1.
Proof. intros a gpu. split; reflexivity. Qed.

Lemma init_builds_for_n_obs_witness :
  Sample.deconv 3 () "n_obs" () = Ok 3
  /\ _model_summary_string SampleRun.spatial_model
     = "RNADeconv Model with params: " +:+ newline +:+ "n_spots: "
         +:+ pretty 3
  /\ exists column,
       ({[ "_indices" := [0; 1; 2]%Z ]} : gmap string (list Z)) !! "_indices"
       = Some column
       /\ length column = 3
       /\ Forall (fun i => (0 <= i < Z.of_nat 3)%Z) column.
Proof.
  exact (init_builds_for_n_obs Sample.register Sample.base_init Sample.deconv
           Sample.init_params sample_register_keeps_obs
           sample_base_keeps_obs Sample.adata
           {| n_obs := 3;
              obs := {[ "_indices" := [0; 1; 2]%Z ]};
              rest := {[ "ind_x" := ("obs", "_indices") ]} |}
           () true "n_obs" () SampleRun.spatial_model eq_refl).
Defined.

Lemma init_twice_same_obs_witness :
  let once :=
    (__init__ Sample.register Sample.base_init Sample.deconv
       Sample.init_params Sample.adata () true "n_obs" ()).1 in
  let twice :=
    (__init__ Sample.register Sample.base_init Sample.deconv
       Sample.init_params once () false "minibatch" ()).1 in
  n_obs twice = n_obs once /\ obs twice = obs once.
Proof.
  exact (init_twice_same_obs Sample.register Sample.base_init Sample.deconv
           Sample.init_params sample_register_keeps_obs
           sample_base_keeps_obs Sample.adata () () true false "n_obs"
           "minibatch" () ()).
Defined.

End ConstructorWitnesses.

Section BestEpochWitness.
Import SaveBestState Monitoring Restoring.

Lemma sample_gradient_step_in_place :
  in_place Sample.net SampleRun.gradient_step.
Proof.
  intros h. unfold SampleRun.gradient_step. split_and!.
  - now rewrite length_alter.
  - intros l Hl Hnot. unfold read. rewrite list_lookup_alter_ne; [reflexivity|].
    intros <-. apply Hnot. cbn. apply elem_of_cons. now left.
  - intros l Hl. unfold read.
    destruct (decide (l = 0)) as [->|Hne].
    + rewrite list_lookup_alter_eq. destruct (h !! 0); cbn; [|reflexivity].
      apply length_fmap.
    + now rewrite list_lookup_alter_ne.
Qed.

Lemma best_epoch_restored_witness :
  let '(self', h', _) :=
    on_epochs_end (Sample.tracker 1) SampleRun.learning_epochs
      Sample.pl_module Sample.net_heap in
  is_Some (best_model_state self') ->
  exists hbest h'',
    (Some (best_model_metric_val self'), hbest)
    ∈ checkpoints (Sample.tracker 1) SampleRun.learning_epochs
        Sample.pl_module Sample.net_heap
    /\ on_train_end self' (Sample.trainer ∅) Sample.pl_module h' = (Ok (), h'')
    /\ forall k,
         entry (named_tensors Sample.net) h'' k
         = entry (named_tensors Sample.net) hbest k.
Proof.
  assert (Hplace :
            Forall (fun epoch : (list (list Z) -> list (list Z)) * Trainer nat =>
                      in_place Sample.net epoch.1)
              SampleRun.learning_epochs)
    by (repeat constructor; apply sample_gradient_step_in_place).
  exact (best_epoch_restored Sample.net Sample.net_heap sample_net_well_formed
           (Sample.tracker 1) SampleRun.learning_epochs (Sample.trainer ∅)
           Hplace eq_refl).
Defined.

(** The sample run: the first epoch logs the best value, two more epochs
    train on, and the restore brings the first epoch's tensors back. *)
Example sample_best_epoch :
  let '(self', h', _) :=
    on_epochs_end (Sample.tracker 1) SampleRun.learning_epochs
      Sample.pl_module Sample.net_heap in
  best_model_metric_val self' = SampleRun.half
  /\ h' = [[13; 23]; [30]; [11; 21]; [30]]%Z
  /\ on_train_end self' (Sample.trainer ∅) Sample.pl_module h'
     = (Ok (), [[11; 21]; [30]; [11; 21]; [30]]%Z).
Proof. repeat split. Qed.

End BestEpochWitness.
